(** * The HLS download endpoint ([api/download.js])

    A shallow embedding of the request handler exported by
    [api/download.js] and the properties of its pipeline:
    validate input, fetch the manifest, parse it, build the concat list,
    run the transcoder, clean up.

    The handler is JavaScript.  Values that reach it from the request are
    dynamically typed, so the [url] parameter is a [JsVal]; the
    collaborators it calls ([axios], [m3u8-parser], [fs], [fluent-ffmpeg],
    [Date.now]) are external and appear as the fields of an environment
    record [Env]; the response object and the file system are threaded
    through a state-and-exception monad.  Calls to [console.log] and
    [console.error] touch neither and are left out. *)

From Stdlib Require Import ZArith String Ascii List Bool Lia.
From stdpp Require Import base option gmap strings list fin_maps pretty.

Local Open Scope string_scope.
Local Open Scope Z_scope.

(** ** JavaScript strings

    Strings are sequences of code units.  Rocq's [string] is a sequence of
    bytes; every pattern the handler searches for is ASCII, and a search
    for an ASCII pattern gives the same answer on either encoding. *)

Module JsString.

(** [s.startsWith(p)] *)
Fixpoint startsWith (s p : string) {struct p} : bool :=
  match p with
  | EmptyString => true
  | String a p' =>
      match s with
      | EmptyString => false
      | String b s' => Ascii.eqb a b && startsWith s' p'
      end
  end.

(** [s.includes(p)] *)
Fixpoint includes (s p : string) : bool :=
  startsWith s p ||
  match s with
  | EmptyString => false
  | String _ s' => includes s' p
  end.

(** [s.lastIndexOf(p)]: the greatest index at which [p] occurs, [-1] when
    there is none. *)
Fixpoint lastIndexOf (s p : string) : Z :=
  match s with
  | EmptyString => if startsWith EmptyString p then 0 else -1
  | String _ s' =>
      let r := lastIndexOf s' p in
      if 0 <=? r then r + 1 else if startsWith s p then 0 else -1
  end.

(** [s.substring(i, j)]: both indices are clamped to [0, s.length] and
    swapped when out of order. *)
Definition substring (s : string) (i j : Z) : string :=
  let n := Z.of_nat (String.length s) in
  let i' := Z.max 0 (Z.min i n) in
  let j' := Z.max 0 (Z.min j n) in
  let lo := Z.min i' j' in
  let hi := Z.max i' j' in
  String.substring (Z.to_nat lo) (Z.to_nat (hi - lo)) s.

(** [xs.join(sep)] on an array of strings. *)
Fixpoint join (sep : string) (xs : list string) : string :=
  match xs with
  | [] => EmptyString
  | x :: xs' =>
      match xs' with
      | [] => x
      | _ :: _ => x ++ sep ++ join sep xs'
      end
  end.

(** The line feed, written [\n] in the source. *)
Definition LF : ascii := Ascii.ascii_of_nat 10.
Definition nl : string := String LF EmptyString.

(** The double quote, as a string. *)
Definition dquote : string := String (Ascii.ascii_of_nat 34) EmptyString.

End JsString.

Import JsString.

(** ** Segment List Builder (download.js, lines 67-89) *)

(** A segment descriptor of the parsed manifest; the handler reads only
    its [uri]. *)
Record Segment := { uri : string }.

(** Line 68: [url.substring(0, url.lastIndexOf('/') + 1)]. *)
Definition baseUrl (url : string) : string :=
  substring url 0 (lastIndexOf url "/" + 1).

(** Lines 82-86, the value of [segmentUrl] when the callback returns. *)
Definition segmentUrl (base : string) (segment : Segment) : string :=
  if negb (startsWith (uri segment) "http")
  then base ++ uri segment
  else uri segment.

(** Line 87, the template literal. *)
Definition segmentLine (base : string) (segment : Segment) : string :=
  "file '" ++ segmentUrl base segment ++ "'".

(** Lines 80-89. *)
Definition segmentsList (base : string) (segments : list Segment) : string :=
  join nl (map (segmentLine base) segments).

(** The lines of a text: the pieces between line feeds, as the consumer of
    the concat list reads them. *)
Fixpoint lines (s : string) : list string :=
  match s with
  | EmptyString => [EmptyString]
  | String c s' =>
      if Ascii.eqb c LF then EmptyString :: lines s'
      else match lines s' with
           | [] => [String c EmptyString]
           | l :: ls => String c l :: ls
           end
  end.

(** ** JavaScript values carried by a request

    [req.query.url] is a string or an array of strings; [req.body.url] is
    whatever the JSON body holds.  Numbers are kept to the integers, which
    is enough to tell [0] from the truthy ones; [JObj] stands for any
    object that is not an array. *)

#[local] Set Warnings "-register-all".

Inductive JsVal :=
  | JUndefined
  | JNull
  | JBool (b : bool)
  | JNum (n : Z)
  | JStr (s : string)
  | JArr (xs : list JsVal)
  | JObj.

(** ToBoolean, as applied by [!url] on line 37. *)
Definition truthy (v : JsVal) : bool :=
  match v with
  | JUndefined | JNull => false
  | JBool b => b
  | JNum n => negb (n =? 0)
  | JStr s => negb (String.eqb s EmptyString)
  | JArr _ | JObj => true
  end.

(** [v === s] for a string [s]. *)
Definition strictEqStr (v : JsVal) (s : string) : bool :=
  match v with
  | JStr t => String.eqb t s
  | _ => false
  end.

(** An exception value.  [response] is the [error.response.status] that an
    axios error carries when the server answered with a failure status. *)
Record JsError := { message : string; response : option Z }.

Definition TypeError (msg : string) : JsError :=
  {| message := msg; response := None |}.

(** ** The request *)

Record Request := {
  method : string;
  query : option (gmap string JsVal);
  body : option (gmap string JsVal)
}.

(** [obj?.url]: [undefined] when [obj] is absent or has no such field. *)
Definition get_url (obj : option (gmap string JsVal)) : JsVal :=
  match obj with
  | None => JUndefined
  | Some o => default JUndefined (o !! "url")
  end.

(** Lines 29-35. *)
Definition request_url (req : Request) : JsVal :=
  if String.eqb (method req) "POST" then get_url (body req)
  else get_url (query req).

(** ** The response *)

Inductive JsonVal :=
  | JsonStr (s : string)
  | JsonArr (xs : list string).

Inductive Body :=
  | NoBody
  | JsonBody (fields : list (string * JsonVal))
  | StreamBody (bytes : string).

Record Response := {
  headers : gmap string string;
  statusCode : Z;
  resBody : Body;
  finished : bool
}.

(** A response nobody has touched: Node's default status is 200. *)
Definition fresh_response : Response :=
  {| headers := ∅; statusCode := 200; resBody := NoBody; finished := false |}.

(** ** The file system and the state of a run *)

Inductive FsEntry :=
  | Dir
  | File (content : string).

Record State := {
  res : Response;
  fs : gmap string FsEntry;
  clock : nat
}.

Definition initial_state (files : gmap string FsEntry) : State :=
  {| res := fresh_response; fs := files; clock := 0 |}.

(** ** The external collaborators *)

Record Manifest := { segments : option (list Segment) }.

(** What one invocation of the transcoder does, as the handler observes it:
    the chain of calls on lines 99-128 throws before any event
    ([FfThrows]), or the ['error'] event fires, or the ['end'] event fires.
    [piped] is what [pipe(res, { end: true })] did to the response: [None]
    when no process ever wrote to it, [Some bytes] when it streamed [bytes]
    and ended the response. *)
Inductive FfmpegRun :=
  | FfThrows (e : JsError)
  | FfError (piped : option string) (e : JsError)
  | FfEnd (bytes : string).

Record Env := {
  tmpdir : string;
  (** the value of the n-th call of [Date.now()] *)
  date_now : nat → Z;
  (** [await axios.get(url)]: the [response.data] or the rejection *)
  axios_get : JsVal → JsError + string;
  (** [parser.push(text); parser.end(); parser.manifest] *)
  m3u8_parse : string → JsError + Manifest;
  (** [mkdirSync(path)] fails with this error, if any *)
  mkdir_error : string → option JsError;
  (** [writeFileSync(path)] fails with this error, if any; the flag tells
      whether the file was created before the failure *)
  write_error : string → option (bool * JsError);
  (** [unlinkSync(path)] fails with this error, if any *)
  unlink_error : string → option JsError;
  (** the transcoder run on the concat list at this path, in this file
      system *)
  ffmpeg_run : string → gmap string FsEntry → FfmpegRun
}.

(** ** Computations that change the state and may throw *)

Definition M (A : Type) : Type := State → (JsError + A) * State.

#[global] Instance M_ret : MRet M := λ A a st, (inr a, st).

#[global] Instance M_bind : MBind M := λ A B f m st,
  match m st with
  | (inl e, st') => (inl e, st')
  | (inr a, st') => f a st'
  end.

Definition throw {A : Type} (e : JsError) : M A := λ st, (inl e, st).

(** [try { m } catch (error) { h error }] *)
Definition try_catch {A : Type} (m : M A) (h : JsError → M A) : M A := λ st,
  match m st with
  | (inl e, st') => h e st'
  | (inr a, st') => (inr a, st')
  end.

Definition lift {A : Type} (r : JsError + A) : M A := λ st, (r, st).

Definition modify_res (f : Response → Response) : M () := λ st,
  (inr (), {| res := f (res st); fs := fs st; clock := clock st |}).

Definition modify_fs (f : gmap string FsEntry → gmap string FsEntry) : M () :=
  λ st, (inr (), {| res := res st; fs := f (fs st); clock := clock st |}).

(** *** The response object *)

Definition setHeader (name value : string) : M () :=
  modify_res (λ r, {| headers := <[name := value]> (headers r);
                      statusCode := statusCode r;
                      resBody := resBody r;
                      finished := finished r |}).

Definition status (code : Z) : M () :=
  modify_res (λ r, {| headers := headers r;
                      statusCode := code;
                      resBody := resBody r;
                      finished := finished r |}).

Definition send (b : Body) : M () :=
  modify_res (λ r, {| headers := headers r;
                      statusCode := statusCode r;
                      resBody := b;
                      finished := true |}).

(** The content type that [res.json] declares. *)
Definition json_content_type : string := "application/json; charset=utf-8".

(** [res.json(obj)]: the helper of the hosting platform sets the content
    type and sends the serialised object. *)
Definition json (fields : list (string * JsonVal)) : M () :=
  setHeader "Content-Type" json_content_type;;
  send (JsonBody fields).

(** [res.end()] *)
Definition end_ : M () :=
  modify_res (λ r, {| headers := headers r;
                      statusCode := statusCode r;
                      resBody := resBody r;
                      finished := true |}).

(** *** [Date.now], [path.join] and [fs] *)

Definition Date_now (env : Env) : M Z := λ st,
  (inr (date_now env (clock st)),
   {| res := res st; fs := fs st; clock := S (clock st) |}).

(** [join(dir, name)] for a directory without a trailing separator and a
    plain file name. *)
Definition path_join (dir name : string) : string := dir ++ "/" ++ name.

Definition existsSync (path : string) : M bool := λ st,
  (inr (bool_decide (is_Some (fs st !! path))), st).

(** The directories above a path: every non-empty prefix that ends right
    before a separator.  The root is always there and is not listed. *)
Fixpoint dirnames (pre rest : string) : list string :=
  match rest with
  | EmptyString => []
  | String c rest' =>
      ((if Ascii.eqb c "/"
        then (if String.eqb pre EmptyString then [] else [pre])
        else [])
       ++ dirnames (pre ++ String c EmptyString) rest')%list
  end.

Definition ancestors (path : string) : list string :=
  dirnames EmptyString path.

(** One step of a recursive [mkdir]: an entry that is there is left
    alone. *)
Definition mkdir_missing (dir : string) (m : gmap string FsEntry)
  : gmap string FsEntry :=
  match m !! dir with
  | Some _ => m
  | None => <[dir := Dir]> m
  end.

(** [mkdirSync(path, { recursive: true })]: the directory and every
    missing directory above it are created. *)
Definition mkdirSync (env : Env) (path : string) : M () :=
  match mkdir_error env path with
  | Some e => throw e
  | None => modify_fs (λ m, foldr mkdir_missing m (path :: ancestors path))
  end.

Definition writeFileSync (env : Env) (path data : string) : M () :=
  match write_error env path with
  | Some (created, e) =>
      (if created then modify_fs (λ m, <[path := File EmptyString]> m) else mret ());;
      throw e
  | None => modify_fs (λ m, <[path := File data]> m)
  end.

Definition unlinkSync (env : Env) (path : string) : M () :=
  match unlink_error env path with
  | Some e => throw e
  | None => modify_fs (λ m, delete path m)
  end.

(** ** The request handler (download.js, lines 8-154) *)

(** How the promise that the [async] handler returns settles. *)
Inductive Settled :=
  | Fulfilled
  | Rejected (e : JsError).

(** Lines 10-16. *)
Definition cors : M () :=
  setHeader "Access-Control-Allow-Credentials" "true";;
  setHeader "Access-Control-Allow-Origin" "*";;
  setHeader "Access-Control-Allow-Methods" "GET,OPTIONS,POST";;
  setHeader "Access-Control-Allow-Headers"
    "X-CSRF-Token, X-Requested-With, Accept, Accept-Version, Content-Length, Content-MD5, Content-Type, Date, X-Api-Version".

(** The payloads of the error responses. *)
Definition method_not_allowed_payload : list (string * JsonVal) :=
  [("error", JsonStr "Method not allowed")].

Definition missing_url_payload : list (string * JsonVal) :=
  [("error", JsonStr "Missing URL parameter");
   ("usage", JsonStr ("Send a POST request with { " ++ dquote ++ "url"
                      ++ dquote ++ ": " ++ dquote ++ "your_m3u8_url" ++ dquote
                      ++ " } or GET with ?url=your_m3u8_url"));
   ("example", JsonStr "https://your-vercel-app.vercel.app/api/download?url=https://media-cdn.classplusapp.com/.../master.m3u8")].

Definition invalid_url_payload : list (string * JsonVal) :=
  [("error", JsonStr "URL must be a valid .m3u8 stream")].

Definition no_segments_payload : list (string * JsonVal) :=
  [("error", JsonStr "No video segments found in the stream")].

Definition not_found_payload : list (string * JsonVal) :=
  [("error", JsonStr "Video not found. The URL might be expired or invalid.")].

Definition forbidden_payload : list (string * JsonVal) :=
  [("error", JsonStr "Access forbidden. The video might be protected.")].

Definition failure_payload (msg : string) : list (string * JsonVal) :=
  [("error", JsonStr "Failed to process video");
   ("message", JsonStr msg);
   ("tips", JsonArr ["Ensure the m3u8 URL is accessible";
                     "Check if the video requires authentication";
                     "Try using a VPN if the content is region-locked"])].

(** [return res.status(code).json(payload)]: the handler's promise is
    fulfilled. *)
Definition respond (code : Z) (payload : list (string * JsonVal)) : M Settled :=
  status code;; json payload;; mret Fulfilled.

(** Line 46, [url.includes('.m3u8')] on a truthy [url]: the string method,
    the array method, or no method at all. *)
Definition url_includes (url : JsVal) (p : string) : M bool :=
  match url with
  | JStr s => mret (includes s p)
  | JArr xs => mret (existsb (λ v, strictEqStr v p) xs)
  | _ => throw (TypeError "url.includes is not a function")
  end.

(** Line 68 on a [url] that is not known to be a string: only strings have
    a [substring] method. *)
Definition url_baseUrl (url : JsVal) : M string :=
  match url with
  | JStr s => mret (baseUrl s)
  | _ => throw (TypeError "url.substring is not a function")
  end.

(** Lines 113-116 and again 122-125: the clean-up of both event
    listeners, with its own [try]/[catch] that swallows the error. *)
Definition cleanup (env : Env) (segmentsListFile outputFile : string) : M () :=
  try_catch
    (e1 ← existsSync segmentsListFile;
     (if e1 : bool then unlinkSync env segmentsListFile else mret ());;
     e2 ← existsSync outputFile;
     (if e2 : bool then unlinkSync env outputFile else mret ()))
    (λ _, mret ()).

(** What [.pipe(res, { end: true })] does to the response. *)
Definition pipe (piped : option string) : M () :=
  match piped with
  | None => mret ()
  | Some bytes => send (StreamBody bytes)
  end.

(** Lines 98-129: [new Promise((resolve, reject) => ...)].  An exception
    thrown inside the executor rejects the promise; the ['error'] listener
    cleans up and calls [reject(err)]; the ['end'] listener cleans up and
    calls [resolve()]. *)
Definition transcode (env : Env) (segmentsListFile outputFile : string)
  : M Settled := λ st,
  match ffmpeg_run env segmentsListFile (fs st) with
  | FfThrows e => (inr (Rejected e), st)
  | FfError piped e =>
      (pipe piped;; cleanup env segmentsListFile outputFile;;
       mret (Rejected e)) st
  | FfEnd bytes =>
      (pipe (Some bytes);; cleanup env segmentsListFile outputFile;;
       mret Fulfilled) st
  end.

(** Lines 67-95, entered with a manifest that has at least one segment:
    the base URL, the temporary directory, the two file names, the concat
    list written to its file, and the headers of the streamed answer.  The
    result is the pair of file names. *)
Definition prepare (env : Env) (url : JsVal) (segs : list Segment)
  : M (string * string) :=
  base ← url_baseUrl url;
  let tempDir := path_join (tmpdir env) "classplus-dl" in
  present ← existsSync tempDir;
  (if present : bool then mret () else mkdirSync env tempDir);;
  t1 ← Date_now env;
  let outputFile := path_join tempDir ("lecture_" ++ pretty t1 ++ ".mp4") in
  t2 ← Date_now env;
  let segmentsListFile :=
    path_join tempDir ("segments_" ++ pretty t2 ++ ".txt") in
  writeFileSync env segmentsListFile (segmentsList base segs);;
  setHeader "Content-Type" "video/mp4";;
  t3 ← Date_now env;
  setHeader "Content-Disposition"
    ("attachment; filename=" ++ dquote ++ "lecture_" ++ pretty t3 ++ ".mp4"
     ++ dquote);;
  mret (segmentsListFile, outputFile).

(** Lines 67-129.  The promise is returned without [await], so its
    rejection is the handler's rejection and not an exception inside the
    [try] block. *)
Definition build_and_transcode (env : Env) (url : JsVal)
    (segs : list Segment) : M Settled :=
  paths ← prepare env url segs;
  transcode env paths.1 paths.2.

(** Lines 50-129, entered with a [url] that passed both checks: fetch,
    parse, refuse an empty manifest, build and transcode. *)
Definition pipeline (env : Env) (url : JsVal) : M Settled :=
  m3u8Content ← lift (axios_get env url);
  parsedManifest ← lift (m3u8_parse env m3u8Content);
  match segments parsedManifest with
  | None => respond 400 no_segments_payload
  | Some [] => respond 400 no_segments_payload
  | Some (seg :: segs) => build_and_transcode env url (seg :: segs)
  end.

(** Lines 29-129, the body of the [try] block. *)
Definition try_block (env : Env) (req : Request) : M Settled :=
  let url := request_url req in
  if negb (truthy url) then respond 400 missing_url_payload
  else
    inc ← url_includes url ".m3u8";
    if negb inc then respond 400 invalid_url_payload
    else pipeline env url.

(** Lines 131-153, the [catch] block. *)
Definition catch_block (error : JsError) : M Settled :=
  match response error with
  | Some st =>
      if st =? 404 then respond 404 not_found_payload
      else if st =? 403 then respond 403 forbidden_payload
      else respond 500 (failure_payload (message error))
  | None => respond 500 (failure_payload (message error))
  end.

(** Lines 8-154. *)
Definition handler (env : Env) (req : Request) : M Settled :=
  cors;;
  if String.eqb (method req) "OPTIONS" then
    status 200;; end_;; mret Fulfilled
  else if negb (String.eqb (method req) "POST")
          && negb (String.eqb (method req) "GET") then
    respond 405 method_not_allowed_payload
  else
    try_catch (try_block env req) catch_block.

(** One request: the settlement of the promise the [async] function
    returns and the state it leaves.  An exception that leaves the function
    body rejects the promise. *)
Definition run (env : Env) (req : Request) (st : State) : Settled * State :=
  match handler env req st with
  | (inl e, st') => (Rejected e, st')
  | (inr s, st') => (s, st')
  end.

Definition serve (env : Env) (req : Request) (files : gmap string FsEntry)
  : Settled * State :=
  run env req (initial_state files).

(** ** What a run leaves behind *)

Definition responseOf (r : Settled * State) : Response := res r.2.
Definition filesOf (r : Settled * State) : gmap string FsEntry := fs r.2.

(** The status the [catch] block answers with for an exception. *)
Definition classify (error : JsError) : Z :=
  match response error with
  | Some st => if st =? 404 then 404 else if st =? 403 then 403 else 500
  | None => 500
  end.

(** A computation that never changes the status code of the response. *)
Definition keeps_status {A : Type} (m : M A) : Prop :=
  ∀ st, statusCode (res (m st).2) = statusCode (res st).

(** ** The conditions of the error taxonomy, in the specification's words *)

(** The [url] parameter is a string that contains [.m3u8]. *)
Definition spec_contains_m3u8 (url : JsVal) : Prop :=
  ∃ s, url = JStr s ∧ includes s ".m3u8" = true.

(** The manifest was fetched and parsed and lists no segment. *)
Definition spec_zero_segments (env : Env) (url : JsVal) : Prop :=
  ∃ text manifest,
    axios_get env url = inr text ∧
    m3u8_parse env text = inr manifest ∧
    (segments manifest = None ∨ segments manifest = Some []).

(** BadRequest: missing URL; URL fails the [.m3u8] substring check; parsed
    manifest has zero segments. *)
Definition spec_bad_request (env : Env) (url : JsVal) : Prop :=
  url = JUndefined ∨ ¬ spec_contains_m3u8 url ∨ spec_zero_segments env url.

(** ** Sample runs *)

Module Sample.

Definition manifest_url : string := "https://cdn.example.com/path/master.m3u8".

Definition three_segments : list Segment :=
  [ {| uri := "seg0.ts" |}; {| uri := "seg1.ts" |}; {| uri := "seg2.ts" |} ].

(** A host on which every step up to the transcoder succeeds and the
    transcoder run is [ff]. *)
Definition env (ff : FfmpegRun) : Env :=
  {| tmpdir := "/tmp";
     date_now := λ n, 1700000000000 + Z.of_nat n;
     axios_get := λ _, inr "#EXTM3U";
     m3u8_parse := λ _, inr {| segments := Some three_segments |};
     mkdir_error := λ _, None;
     write_error := λ _, None;
     unlink_error := λ _, None;
     ffmpeg_run := λ _ _, ff |}.

Definition get (url : JsVal) : Request :=
  {| method := "GET"; query := Some {[ "url" := url ]}; body := None |}.

Definition post (url : JsVal) : Request :=
  {| method := "POST"; query := None; body := Some {[ "url" := url ]} |}.

Definition with_method (m : string) : Request :=
  {| method := m; query := Some {[ "url" := JStr manifest_url ]}; body := None |}.

Definition segments_file : string :=
  "/tmp/classplus-dl/segments_1700000000001.txt".

(** [pipe] refuses a response that is no longer writable. *)
Definition invalid_output : JsError := TypeError "Invalid output".

(** The transcoder binary cannot be started. *)
Definition cannot_find_ffmpeg : JsError := TypeError "Cannot find ffmpeg".

(** The disk fills up while the concat list is being written: the file
    has been created, the write fails. *)
Definition no_space : JsError :=
  TypeError "ENOSPC: no space left on device, write".

Definition env_disk_full : Env :=
  {| tmpdir := "/tmp";
     date_now := λ n, 1700000000000 + Z.of_nat n;
     axios_get := λ _, inr "#EXTM3U";
     m3u8_parse := λ _, inr {| segments := Some three_segments |};
     mkdir_error := λ _, None;
     write_error := λ _, Some (true, no_space);
     unlink_error := λ _, None;
     ffmpeg_run := λ _ _, FfEnd "mp4" |}.

End Sample.

(** ** An absolute address, in the specification's words *)

Definition is_alpha (c : ascii) : bool :=
  let n := Ascii.nat_of_ascii c in
  ((65 <=? n) && (n <=? 90) || (97 <=? n) && (n <=? 122))%nat.

Definition is_digit (c : ascii) : bool :=
  let n := Ascii.nat_of_ascii c in ((48 <=? n) && (n <=? 57))%nat.

(** The characters of a scheme after its first letter. *)
Definition is_scheme_char (c : ascii) : bool :=
  is_alpha c || is_digit c || Ascii.eqb c "+" || Ascii.eqb c "-"
  || Ascii.eqb c ".".

(** Scheme characters up to a colon. *)
Fixpoint scheme_tail (s : string) : bool :=
  match s with
  | EmptyString => false
  | String c s' =>
      if Ascii.eqb c ":" then true else is_scheme_char c && scheme_tail s'
  end.

(** A URI that denotes an absolute address: it begins with a scheme, a
    letter followed by scheme characters and a colon. *)
Definition spec_absolute (u : string) : bool :=
  match u with
  | EmptyString => false
  | String c s' => is_alpha c && scheme_tail s'
  end.

(** The resolution as the specification words it: an absolute URI is used
    unchanged, any other is appended to the base URL. *)
Definition spec_resolve (base u : string) : string :=
  if spec_absolute u then u else base ++ u.

(** ** Names for the further properties *)

(** Line 71, the directory of the temporary files. *)
Definition tempDir (env : Env) : string :=
  path_join (tmpdir env) "classplus-dl".

(** Line 76, with [t] the value of [Date.now()] there. *)
Definition outputFile (env : Env) (t : Z) : string :=
  path_join (tempDir env) ("lecture_" ++ pretty t ++ ".mp4").

(** Line 77, with [t] the value of [Date.now()] there. *)
Definition segmentsListFile (env : Env) (t : Z) : string :=
  path_join (tempDir env) ("segments_" ++ pretty t ++ ".txt").

(** Line 95, the value of the [Content-Disposition] header. *)
Definition contentDisposition (t : Z) : string :=
  "attachment; filename=" ++ dquote ++ "lecture_" ++ pretty t ++ ".mp4"
  ++ dquote.

(** A body that is a JSON object whose first field is [error]. *)
Definition has_error_field (b : Body) : Prop :=
  ∃ msg rest, b = JsonBody (("error", JsonStr msg) :: rest).

(** The four CORS headers of lines 10-16 are in a response. *)
Definition has_cors (r : Response) : Prop :=
  headers r !! "Access-Control-Allow-Credentials" = Some "true" ∧
  headers r !! "Access-Control-Allow-Origin" = Some "*" ∧
  headers r !! "Access-Control-Allow-Methods" = Some "GET,OPTIONS,POST" ∧
  is_Some (headers r !! "Access-Control-Allow-Headers").

(** The answer of the [catch] block to an exception. *)
Definition catch_payload (error : JsError) : list (string * JsonVal) :=
  if classify error =? 404 then not_found_payload
  else if classify error =? 403 then forbidden_payload
  else failure_payload (message error).

(** The request passes both checks of lines 37-48 and its manifest is
    fetched and parsed with the segments [segs], at least one. *)
Definition reaches_builder (env : Env) (req : Request) (s : string)
    (segs : list Segment) : Prop :=
  (method req = "GET" ∨ method req = "POST") ∧
  request_url req = JStr s ∧
  includes s ".m3u8" = true ∧
  segs ≠ [] ∧
  ∃ text manifest,
    axios_get env (JStr s) = inr text ∧
    m3u8_parse env text = inr manifest ∧
    segments manifest = Some segs.

(** The first request on a host can create the directory, unless it is
    there, and write its concat list. *)
Definition can_prepare (env : Env) (files : gmap string FsEntry) : Prop :=
  (is_Some (files !! tempDir env) ∨ mkdir_error env (tempDir env) = None) ∧
  write_error env (segmentsListFile env (date_now env 1)) = None.

Module Scenario.

(** The manifest server answers with a failure status. *)
Definition upstream (code : Z) : JsError :=
  {| message := "Request failed with status code " ++ pretty code;
     response := Some code |}.

Definition env_upstream (code : Z) : Env :=
  {| tmpdir := "/tmp";
     date_now := λ n, 1700000000000 + Z.of_nat n;
     axios_get := λ _, inl (upstream code);
     m3u8_parse := λ _, inr {| segments := Some Sample.three_segments |};
     mkdir_error := λ _, None;
     write_error := λ _, None;
     unlink_error := λ _, None;
     ffmpeg_run := λ _ _, FfEnd "mp4" |}.

(** A manifest URL with an encoded line feed in its path, decoded by the
    query parser; it passes the check of line 46. *)
Definition url_with_line_feed : string :=
  "https://h/a" ++ nl ++ "b/x.m3u8".

(** Deleting is not permitted. *)
Definition not_permitted : JsError :=
  TypeError "EPERM: operation not permitted, unlink".

Definition env_unlink_fails : Env :=
  {| tmpdir := "/tmp";
     date_now := λ n, 1700000000000 + Z.of_nat n;
     axios_get := λ _, inr "#EXTM3U";
     m3u8_parse := λ _, inr {| segments := Some Sample.three_segments |};
     mkdir_error := λ _, None;
     write_error := λ _, None;
     unlink_error := λ _, Some not_permitted;
     ffmpeg_run := λ _ _, FfEnd "mp4" |}.

End Scenario.

(** * Properties *)

(** ** Strings *)

Section StringFacts.

Lemma append_cons (a : ascii) (s t : string) :
  String a s ++ t = String a (s ++ t).
Proof. reflexivity. Qed.

Lemma append_empty_l (t : string) : EmptyString ++ t = t.
Proof. reflexivity. Qed.

Lemma append_assoc (s t u : string) : (s ++ t) ++ u = s ++ (t ++ u).
Proof.
  induction s as [|a s IH]; [reflexivity|].
  rewrite !append_cons. by rewrite IH.
Qed.

Lemma length_append (s t : string) :
  String.length (s ++ t) = (String.length s + String.length t)%nat.
Proof.
  induction s as [|a s IH]; [reflexivity|].
  rewrite append_cons. simpl. by rewrite IH.
Qed.

Lemma substring_prefix (s t : string) :
  String.substring 0 (String.length s) (s ++ t) = s.
Proof.
  induction s as [|a s IH].
  - rewrite append_empty_l. destruct t; reflexivity.
  - rewrite append_cons. simpl. by rewrite IH.
Qed.

(** Searching for a single character. *)

Lemma startsWith_char (c a : ascii) (s : string) :
  startsWith (String a s) (String c EmptyString) = Ascii.eqb c a.
Proof. simpl. apply andb_true_r. Qed.

Lemma includes_char_cons (c a : ascii) (s : string) :
  includes (String a s) (String c EmptyString)
  = Ascii.eqb c a || includes s (String c EmptyString).
Proof. simpl. by rewrite andb_true_r. Qed.

Lemma includes_char_append (c : ascii) (s t : string) :
  includes (s ++ t) (String c EmptyString)
  = includes s (String c EmptyString) || includes t (String c EmptyString).
Proof.
  induction s as [|a s IH].
  - rewrite append_empty_l. reflexivity.
  - rewrite append_cons, !includes_char_cons, IH. apply orb_assoc.
Qed.

Lemma substring_char_free (c : ascii) (s : string) (n m : nat) :
  includes s (String c EmptyString) = false →
  includes (String.substring n m s) (String c EmptyString) = false.
Proof.
  revert n m. induction s as [|a s IH]; intros n m H.
  - destruct n, m; reflexivity.
  - rewrite includes_char_cons in H. apply orb_false_iff in H as [Ha Hs].
    destruct n as [|n].
    + destruct m as [|m]; [reflexivity|].
      cbn [String.substring]. rewrite includes_char_cons, Ha. by apply IH.
    + cbn [String.substring]. by apply IH.
Qed.

Lemma lastIndexOf_absent (c : ascii) (s : string) :
  includes s (String c EmptyString) = false →
  lastIndexOf s (String c EmptyString) = -1.
Proof.
  induction s as [|a s IH]; [reflexivity|].
  rewrite includes_char_cons. intros [Ha Hs]%orb_false_iff.
  cbn [lastIndexOf]. rewrite (IH Hs), startsWith_char, Ha. reflexivity.
Qed.

Lemma lastIndexOf_last (c : ascii) (p r : string) :
  includes r (String c EmptyString) = false →
  lastIndexOf (p ++ String c r) (String c EmptyString)
  = Z.of_nat (String.length p).
Proof.
  intros Hr. induction p as [|a p IH].
  - rewrite append_empty_l. cbn [lastIndexOf].
    rewrite (lastIndexOf_absent _ _ Hr), startsWith_char, Ascii.eqb_refl.
    reflexivity.
  - rewrite append_cons. cbn [lastIndexOf]. rewrite IH.
    destruct (Z.leb_spec 0 (Z.of_nat (String.length p))); [|lia].
    cbn [String.length]. lia.
Qed.

End StringFacts.

(** ** Lines of a text *)

Section Lines.





End Lines.

(** ** Segment List Builder *)

Lemma baseUrl_up_to_last_slash (p r : string) :
  includes r "/" = false → baseUrl (p ++ "/" ++ r) = p ++ "/".
Proof.
  intros Hr. unfold baseUrl. change ("/" ++ r) with (String "/" r).
  rewrite (lastIndexOf_last _ _ _ Hr). unfold substring.
  replace (p ++ String "/" r) with ((p ++ "/") ++ r)
    by (rewrite append_assoc; reflexivity).
  rewrite (length_append (p ++ "/") r).
  assert (Hl : String.length (p ++ "/") = S (String.length p))
    by (rewrite length_append; simpl; lia).
  rewrite Hl.
  replace (Z.to_nat _) with 0%nat by lia.
  match goal with |- String.substring 0 (Z.to_nat ?k) _ = _ =>
    replace (Z.to_nat k) with (String.length (p ++ "/")) by (rewrite Hl; lia)
  end.
  apply substring_prefix.
Qed.

(** A manifest URL without any slash has the empty base. *)
Lemma baseUrl_no_slash (url : string) :
  includes url "/" = false → baseUrl url = EmptyString.
Proof.
  intros H. unfold baseUrl. rewrite (lastIndexOf_absent _ _ H).
  unfold substring. simpl Z.add.
  replace (Z.to_nat _) with 0%nat by lia.
  match goal with |- String.substring 0 (Z.to_nat ?k) _ = _ =>
    replace (Z.to_nat k) with 0%nat by lia
  end.
  destruct url; reflexivity.
Qed.

Lemma baseUrl_single_line (url : string) :
  includes url nl = false → includes (baseUrl url) nl = false.
Proof. intros H. unfold baseUrl, substring. by apply substring_char_free. Qed.

Lemma segmentLine_single_line (base : string) (seg : Segment) :
  includes base nl = false → includes (uri seg) nl = false →
  includes (segmentLine base seg) nl = false.
Proof.
  intros Hb Hu. unfold segmentLine, segmentUrl, nl.
  rewrite !includes_char_append.
  destruct (startsWith (uri seg) "http"); simpl negb; cbv iota;
    rewrite ?includes_char_append; fold nl; rewrite ?Hb, ?Hu; reflexivity.
Qed.

(** Property 7 of the specification, run. *)
Example resolution_sample :
  map (segmentUrl (baseUrl Sample.manifest_url))
      [ {| uri := "seg0.ts" |}; {| uri := "https://o.example.com/s1.ts" |} ]
  = [ "https://cdn.example.com/path/seg0.ts"; "https://o.example.com/s1.ts" ].
Proof. reflexivity. Qed.

(** Property 8 of the specification, run. *)
Example concat_list_sample :
  lines (segmentsList (baseUrl Sample.manifest_url) Sample.three_segments)
  = [ "file 'https://cdn.example.com/path/seg0.ts'";
      "file 'https://cdn.example.com/path/seg1.ts'";
      "file 'https://cdn.example.com/path/seg2.ts'" ].
Proof. reflexivity. Qed.

(** ** The answers of the handler *)

Lemma respond_run (code : Z) (payload : list (string * JsonVal)) (st : State) :
  respond code payload st
  = (inr Fulfilled,
     {| res := {| headers := <["Content-Type" := json_content_type]>
                               (headers (res st));
                  statusCode := code;
                  resBody := JsonBody payload; finished := true |};
        fs := fs st; clock := clock st |}).
Proof. reflexivity. Qed.

Lemma classify_range (error : JsError) :
  classify error = 404 ∨ classify error = 403 ∨ classify error = 500.
Proof.
  unfold classify. destruct (response error) as [c|]; [|auto].
  destruct (c =? 404); [|destruct (c =? 403)]; auto.
Qed.

Lemma classify_not_400 (e : JsError) : classify e ≠ 400.
Proof. destruct (classify_range e) as [->|[->| ->]]; lia. Qed.

Lemma classify_404 (e : JsError) : response e = Some 404 → classify e = 404.
Proof. unfold classify. by intros ->. Qed.

Lemma classify_403 (e : JsError) : response e = Some 403 → classify e = 403.
Proof. unfold classify. by intros ->. Qed.

Lemma classify_other (e : JsError) :
  response e ≠ Some 404 → response e ≠ Some 403 → classify e = 500.
Proof.
  unfold classify. destruct (response e) as [c|]; [|done]. intros H1 H2.
  destruct (Z.eqb_spec c 404); [congruence|].
  destruct (Z.eqb_spec c 403); congruence.
Qed.

(** The [catch] block answers once, with a JSON payload and the status of
    the exception's class, and touches no file. *)
Lemma catch_block_run (error : JsError) (st : State) :
  ∃ payload,
    catch_block error st
    = (inr Fulfilled,
       {| res := {| headers := <["Content-Type" := json_content_type]>
                                 (headers (res st));
                    statusCode := classify error;
                    resBody := JsonBody payload; finished := true |};
          fs := fs st; clock := clock st |}).
Proof.
  unfold catch_block, classify. destruct (response error) as [c|].
  - destruct (c =? 404); [|destruct (c =? 403)]; eexists; apply respond_run.
  - eexists; apply respond_run.
Qed.

Lemma catch_block_status (e : JsError) (st : State) :
  statusCode (res (catch_block e st).2) = classify e.
Proof. by destruct (catch_block_run e st) as [payload ->]. Qed.

Lemma run_options (env : Env) (req : Request) (st : State) :
  method req = "OPTIONS" →
  ∃ h, run env req st
  = (Fulfilled,
     {| res := {| headers := h; statusCode := 200;
                  resBody := resBody (res st); finished := true |};
        fs := fs st; clock := clock st |}).
Proof.
  intros Hm. unfold run, handler. rewrite Hm. eexists. reflexivity.
Qed.

Lemma run_other_method (env : Env) (req : Request) (st : State) :
  method req ≠ "OPTIONS" → method req ≠ "POST" → method req ≠ "GET" →
  ∃ h, run env req st
  = (Fulfilled,
     {| res := {| headers := h; statusCode := 405;
                  resBody := JsonBody method_not_allowed_payload;
                  finished := true |};
        fs := fs st; clock := clock st |}).
Proof.
  intros H1 H2 H3. unfold run, handler.
  apply String.eqb_neq in H1, H2, H3. rewrite H1, H2, H3.
  eexists. reflexivity.
Qed.

(** On GET and POST: the CORS headers, then the guarded block. *)
Lemma run_get_post (env : Env) (req : Request) (st : State) :
  method req = "GET" ∨ method req = "POST" →
  run env req st
  = match try_catch (try_block env req) catch_block (cors st).2 with
    | (inl e, st') => (Rejected e, st')
    | (inr s, st') => (s, st')
    end.
Proof.
  intros [Hm|Hm]; unfold run, handler; rewrite Hm; reflexivity.
Qed.

(** ** Steps that leave the status code alone *)

Create HintDb keeps.

Section KeepsStatus.

Context (env : Env).

Lemma keeps_ret {A : Type} (a : A) : keeps_status (mret a).
Proof. by intros st. Qed.

Lemma keeps_throw {A : Type} (e : JsError) : keeps_status (@throw A e).
Proof. by intros st. Qed.

Lemma keeps_bind {A B : Type} (m : M A) (f : A → M B) :
  keeps_status m → (∀ a, keeps_status (f a)) → keeps_status (m ≫= f).
Proof.
  intros Hm Hf st. specialize (Hm st). unfold mbind, M_bind.
  destruct (m st) as [[e|a] st']; [exact Hm|].
  rewrite Hf. exact Hm.
Qed.

Lemma keeps_try_catch {A : Type} (m : M A) (h : JsError → M A) :
  keeps_status m → (∀ e, keeps_status (h e)) → keeps_status (try_catch m h).
Proof.
  intros Hm Hh st. specialize (Hm st). unfold try_catch.
  destruct (m st) as [[e|a] st']; [|exact Hm].
  rewrite Hh. exact Hm.
Qed.

Lemma keeps_if {A : Type} (b : bool) (m1 m2 : M A) :
  keeps_status m1 → keeps_status m2 → keeps_status (if b then m1 else m2).
Proof. by destruct b. Qed.

Lemma keeps_modify_fs f : keeps_status (modify_fs f).
Proof. by intros st. Qed.

Lemma keeps_setHeader name value : keeps_status (setHeader name value).
Proof. by intros st. Qed.

Lemma keeps_send b : keeps_status (send b).
Proof. by intros st. Qed.

Lemma keeps_Date_now : keeps_status (Date_now env).
Proof. by intros st. Qed.

Lemma keeps_existsSync path : keeps_status (existsSync path).
Proof. by intros st. Qed.

Lemma keeps_mkdirSync path : keeps_status (mkdirSync env path).
Proof. unfold mkdirSync. by destruct (mkdir_error env path). Qed.

Lemma keeps_unlinkSync path : keeps_status (unlinkSync env path).
Proof. unfold unlinkSync. by destruct (unlink_error env path). Qed.

Lemma keeps_writeFileSync path data :
  keeps_status (writeFileSync env path data).
Proof.
  unfold writeFileSync.
  destruct (write_error env path) as [[[] e]|]; by intros st.
Qed.

Lemma keeps_url_baseUrl url : keeps_status (url_baseUrl url).
Proof. by destruct url. Qed.

Lemma keeps_pipe piped : keeps_status (pipe piped).
Proof. by destruct piped. Qed.

#[local] Hint Resolve keeps_ret keeps_throw keeps_modify_fs keeps_setHeader
  keeps_send keeps_Date_now keeps_existsSync keeps_mkdirSync keeps_unlinkSync
  keeps_writeFileSync keeps_url_baseUrl keeps_pipe : keeps.

Ltac keeps :=
  repeat first
    [ apply keeps_bind; [|intros ?]
    | apply keeps_try_catch; [|intros ?]
    | apply keeps_if
    | solve [auto with keeps] ].

Lemma keeps_cleanup f o : keeps_status (cleanup env f o).
Proof. unfold cleanup. keeps. Qed.

Lemma keeps_transcode f o : keeps_status (transcode env f o).
Proof.
  intros st. unfold transcode.
  destruct (ffmpeg_run env f (fs st)) as [e|piped e|bytes]; [done| |].
  - assert (H : keeps_status
                  (pipe piped;; cleanup env f o;; mret (Rejected e)))
      by keeps.
    apply H.
  - assert (H : keeps_status
                  (pipe (Some bytes);; cleanup env f o;; mret Fulfilled))
      by keeps.
    apply H.
Qed.

Lemma keeps_prepare url segs : keeps_status (prepare env url segs).
Proof. unfold prepare. keeps. Qed.

Lemma keeps_build_and_transcode url segs :
  keeps_status (build_and_transcode env url segs).
Proof.
  unfold build_and_transcode.
  apply keeps_bind; [apply keeps_prepare|intros ?; apply keeps_transcode].
Qed.

End KeepsStatus.

(** ** The guarded block, case by case *)

Lemma guarded_falsy (env : Env) (req : Request) (st : State) :
  truthy (request_url req) = false →
  try_catch (try_block env req) catch_block st
  = respond 400 missing_url_payload st.
Proof. intros H. unfold try_catch, try_block. rewrite H. reflexivity. Qed.

Lemma guarded_invalid (env : Env) (req : Request) (st : State) :
  truthy (request_url req) = true →
  url_includes (request_url req) ".m3u8" = mret false →
  try_catch (try_block env req) catch_block st
  = respond 400 invalid_url_payload st.
Proof.
  intros Ht Hi. unfold try_catch, try_block. rewrite Ht, Hi. reflexivity.
Qed.

(** A truthy [url] without an [includes] method ends in the [catch]
    block. *)
Lemma guarded_no_method (env : Env) (req : Request) (st : State)
    (e : JsError) :
  truthy (request_url req) = true →
  url_includes (request_url req) ".m3u8" = throw e →
  try_catch (try_block env req) catch_block st = catch_block e st.
Proof.
  intros Ht Hi. unfold try_catch, try_block. rewrite Ht, Hi. reflexivity.
Qed.

Lemma guarded_valid (env : Env) (req : Request) (st : State) :
  truthy (request_url req) = true →
  url_includes (request_url req) ".m3u8" = mret true →
  try_catch (try_block env req) catch_block st
  = try_catch (pipeline env (request_url req)) catch_block st.
Proof.
  intros Ht Hi. unfold try_catch, try_block. rewrite Ht, Hi. reflexivity.
Qed.

Lemma pipeline_fetch_fails (env : Env) (url : JsVal) (st : State)
    (e : JsError) :
  axios_get env url = inl e →
  try_catch (pipeline env url) catch_block st = catch_block e st.
Proof.
  intros H. unfold try_catch, pipeline, mbind, M_bind, lift. by rewrite H.
Qed.

Lemma pipeline_parse_fails (env : Env) (url : JsVal) (st : State)
    (text : string) (e : JsError) :
  axios_get env url = inr text → m3u8_parse env text = inl e →
  try_catch (pipeline env url) catch_block st = catch_block e st.
Proof.
  intros H1 H2. unfold try_catch, pipeline, mbind, M_bind, lift.
  by rewrite H1, H2.
Qed.

Lemma pipeline_parsed (env : Env) (url : JsVal) (st : State)
    (text : string) (manifest : Manifest) :
  axios_get env url = inr text → m3u8_parse env text = inr manifest →
  try_catch (pipeline env url) catch_block st
  = match segments manifest with
    | None | Some [] => respond 400 no_segments_payload st
    | Some (seg :: segs) =>
        try_catch (build_and_transcode env url (seg :: segs)) catch_block st
    end.
Proof.
  intros H1 H2. unfold try_catch, pipeline, mbind, M_bind, lift.
  rewrite H1, H2. by destruct (segments manifest) as [[|seg segs]|].
Qed.

(** Once the segments are there, the status that is left is the one that
    was found or one of the [catch] block. *)
Lemma guarded_build_status (env : Env) (url : JsVal) (segs : list Segment)
    (st : State) :
  statusCode
    (res (try_catch (build_and_transcode env url segs) catch_block st).2)
  = statusCode (res st)
  ∨ ∃ e, statusCode
           (res (try_catch (build_and_transcode env url segs)
                   catch_block st).2) = classify e.
Proof.
  pose proof (keeps_build_and_transcode env url segs st) as Hk.
  unfold try_catch.
  destruct (build_and_transcode env url segs st) as [[e|s] st']; [|by left].
  right. exists e. destruct (catch_block_run e st') as [payload ->].
  reflexivity.
Qed.

Lemma falsy_not_m3u8 (url : JsVal) :
  truthy url = false → ¬ spec_contains_m3u8 url.
Proof.
  intros Hf (s & -> & Hs). simpl in Hf.
  apply negb_false_iff, String.eqb_eq in Hf. subst s. discriminate.
Qed.

Lemma guarded_400_iff (env : Env) (req : Request) (st : State) :
  statusCode (res st) = 200 →
  truthy (request_url req) = false ∨ (∃ s, request_url req = JStr s) →
  statusCode (res (try_catch (try_block env req) catch_block st).2) = 400
  ↔ spec_bad_request env (request_url req).
Proof.
  intros Hst Hty.
  destruct (truthy (request_url req)) eqn:Htr.
  2:{ rewrite (guarded_falsy _ _ _ Htr). split; [|reflexivity].
      intros _. right; left. by apply falsy_not_m3u8. }
  destruct Hty as [|[s Hs]]; [done|].
  destruct (includes s ".m3u8") eqn:Hinc.
  2:{ rewrite guarded_invalid; [|done|by rewrite Hs; cbn; rewrite Hinc].
      split; [|reflexivity]. intros _. right; left. rewrite Hs.
      intros (s' & [= <-] & H'). congruence. }
  rewrite guarded_valid; [|done|by rewrite Hs; cbn; rewrite Hinc].
  assert (Hcont : spec_contains_m3u8 (request_url req))
    by (exists s; by rewrite Hs).
  assert (Hdef : request_url req ≠ JUndefined) by (by rewrite Hs).
  unfold spec_bad_request, spec_zero_segments.
  destruct (axios_get env (request_url req)) as [e|text] eqn:Hget.
  { rewrite (pipeline_fetch_fails _ _ _ _ Hget), catch_block_status.
    split; [intros H; by destruct (classify_not_400 e)|].
    intros [|[|(t & m & Ht & _)]]; congruence. }
  destruct (m3u8_parse env text) as [e|manifest] eqn:Hparse.
  { rewrite (pipeline_parse_fails _ _ _ _ _ Hget Hparse), catch_block_status.
    split; [intros H; by destruct (classify_not_400 e)|].
    intros [|[|(t & m & Ht & Hp & _)]]; congruence. }
  rewrite (pipeline_parsed _ _ _ _ _ Hget Hparse).
  destruct (segments manifest) as [[|seg segs]|] eqn:Hsegs.
  - split; [|reflexivity]. intros _. right; right. exists text, manifest. auto.
  - split.
    + intros H400.
      destruct (guarded_build_status env (request_url req) (seg :: segs) st)
        as [H|[e H]];
        rewrite H in H400; [lia|by destruct (classify_not_400 e)].
    + intros [|[|(t & m & Ht & Hp & Hm)]]; try congruence.
      injection Ht as <-. rewrite Hparse in Hp. injection Hp as <-.
      destruct Hm; congruence.
  - split; [|reflexivity]. intros _. right; right. exists text, manifest. auto.
Qed.

(** ** Exceptions and rejections *)

Lemma bind_inr {A B : Type} (m : M A) (f : A → M B) (st st' : State) (b : B) :
  (m ≫= f) st = (inr b, st') →
  ∃ a st1, m st = (inr a, st1) ∧ f a st1 = (inr b, st').
Proof.
  unfold mbind, M_bind. destruct (m st) as [[e|a] st1]; [discriminate|eauto].
Qed.

(** Every exception of the guarded block is answered once, with the status
    of its class and a JSON payload; the files stay as the exception left
    them. *)
Lemma run_caught (env : Env) (req : Request) (st : State) (e : JsError)
    (st' : State) :
  method req = "GET" ∨ method req = "POST" →
  try_block env req (cors st).2 = (inl e, st') →
  (run env req st).1 = Fulfilled ∧
  statusCode (res (run env req st).2) = classify e ∧
  (∃ payload, resBody (res (run env req st).2) = JsonBody payload) ∧
  fs (run env req st).2 = fs st'.
Proof.
  intros Hm Htry. rewrite (run_get_post _ _ _ Hm). unfold try_catch.
  rewrite Htry. destruct (catch_block_run e st') as [payload ->].
  cbn. eauto.
Qed.

(** A failed fetch is answered with the status of its class: 404 and 403
    for these upstream statuses, 500 for the rest. *)
Lemma fetch_failure_status (env : Env) (req : Request)
    (files : gmap string FsEntry) (e : JsError) :
  method req = "GET" ∨ method req = "POST" →
  truthy (request_url req) = true →
  url_includes (request_url req) ".m3u8" = mret true →
  axios_get env (request_url req) = inl e →
  (serve env req files).1 = Fulfilled ∧
  statusCode (responseOf (serve env req files)) = classify e.
Proof.
  intros Hm Ht Hi Hget. unfold serve, responseOf.
  rewrite (run_get_post _ _ _ Hm), (guarded_valid _ _ _ Ht Hi),
    (pipeline_fetch_fails _ _ _ _ Hget).
  by destruct (catch_block_run e (cors (initial_state files)).2)
    as [payload ->].
Qed.

(** So is an exception of the parser. *)
Lemma parse_failure_status (env : Env) (req : Request)
    (files : gmap string FsEntry) (text : string) (e : JsError) :
  method req = "GET" ∨ method req = "POST" →
  truthy (request_url req) = true →
  url_includes (request_url req) ".m3u8" = mret true →
  axios_get env (request_url req) = inr text →
  m3u8_parse env text = inl e →
  (serve env req files).1 = Fulfilled ∧
  statusCode (responseOf (serve env req files)) = classify e.
Proof.
  intros Hm Ht Hi Hget Hparse. unfold serve, responseOf.
  rewrite (run_get_post _ _ _ Hm), (guarded_valid _ _ _ Ht Hi),
    (pipeline_parse_fails _ _ _ _ _ Hget Hparse).
  by destruct (catch_block_run e (cors (initial_state files)).2)
    as [payload ->].
Qed.

(** ** The transcoder step *)

Lemma cleanup_run (env : Env) (f o : string) (st : State) :
  (∀ p, unlink_error env p = None) →
  cleanup env f o st
  = (inr (), {| res := res st; fs := delete o (delete f (fs st));
                clock := clock st |}).
Proof.
  intros Hu. unfold cleanup, try_catch, mbind, M_bind, mret, M_ret,
    existsSync, unlinkSync. rewrite !Hu. unfold modify_fs. cbn [fs res clock].
  destruct (bool_decide (is_Some (fs st !! f))) eqn:Hf; cbn [fs res clock].
  - destruct (bool_decide (is_Some (delete f (fs st) !! o))) eqn:Ho;
      cbn [fs res clock]; [done|].
    apply bool_decide_eq_false in Ho. rewrite <- eq_None_not_Some in Ho.
    by rewrite (delete_id _ _ Ho).
  - apply bool_decide_eq_false in Hf. rewrite <- eq_None_not_Some in Hf.
    rewrite (delete_id _ _ Hf).
    destruct (bool_decide (is_Some (fs st !! o))) eqn:Ho;
      cbn [fs res clock]; [done|].
    apply bool_decide_eq_false in Ho. rewrite <- eq_None_not_Some in Ho.
    rewrite (delete_id _ _ Ho). by destruct st.
Qed.

(** Once the transcoder has fired its terminal event, and deleting works,
    neither temporary file is left. *)
Lemma transcode_cleans_up (env : Env) (f o : string) (st : State) :
  (∀ p, unlink_error env p = None) →
  (∀ e, ffmpeg_run env f (fs st) ≠ FfThrows e) →
  fs (transcode env f o st).2 !! f = None ∧
  fs (transcode env f o st).2 !! o = None.
Proof.
  intros Hu Hev. unfold transcode.
  destruct (ffmpeg_run env f (fs st)) as [e|piped e|bytes];
    [by destruct (Hev e)| |].
  - unfold mbind, M_bind.
    destruct piped as [bytes|]; cbn [pipe send modify_res mret M_ret];
      rewrite (cleanup_run _ _ _ _ Hu); cbn [snd fs];
      (split; [apply lookup_delete_None; right|]; apply lookup_delete_eq).
  - unfold mbind, M_bind. cbn [pipe send modify_res mret M_ret].
    rewrite (cleanup_run _ _ _ _ Hu); cbn [snd fs].
    split; [apply lookup_delete_None; right|]; apply lookup_delete_eq.
Qed.

Lemma transcode_rejected (env : Env) (f o : string) (st st' : State)
    (e : JsError) :
  transcode env f o st = (inr (Rejected e), st') →
  ffmpeg_run env f (fs st) = FfThrows e
  ∨ ∃ piped, ffmpeg_run env f (fs st) = FfError piped e.
Proof.
  unfold transcode.
  destruct (ffmpeg_run env f (fs st)) as [e'|piped e'|bytes]; intros H.
  - left. by injection H as -> _.
  - right. exists piped.
    apply bind_inr in H as (? & st1 & _ & H).
    apply bind_inr in H as (? & st2 & _ & H). by injection H as -> _.
  - apply bind_inr in H as (? & st1 & _ & H).
    apply bind_inr in H as (? & st2 & _ & H). discriminate H.
Qed.

Lemma try_block_rejected (env : Env) (req : Request) (st st' : State)
    (e : JsError) :
  try_block env req st = (inr (Rejected e), st') →
  ∃ f files,
    ffmpeg_run env f files = FfThrows e
    ∨ ∃ piped, ffmpeg_run env f files = FfError piped e.
Proof.
  unfold try_block.
  destruct (negb (truthy (request_url req))); [discriminate|].
  intros H. apply bind_inr in H as (inc & st1 & _ & H).
  destruct (negb inc); [discriminate|].
  unfold pipeline in H.
  apply bind_inr in H as (text & st2 & _ & H).
  apply bind_inr in H as (manifest & st3 & _ & H).
  destruct (segments manifest) as [[|seg segs]|]; [discriminate| |discriminate].
  unfold build_and_transcode in H.
  apply bind_inr in H as (paths & st4 & _ & H).
  apply transcode_rejected in H. eauto.
Qed.

(** When the directory and the file can be written, the file that the
    transcoder is pointed at holds the concat list. *)
Lemma prepare_writes (env : Env) (s : string) (segs : list Segment)
    (st : State) :
  mkdir_error env (path_join (tmpdir env) "classplus-dl") = None →
  (∀ p, write_error env p = None) →
  ∃ f o st',
    prepare env (JStr s) segs st = (inr (f, o), st') ∧
    fs st' !! f = Some (File (segmentsList (baseUrl s) segs)).
Proof.
  intros Hmk Hwr.
  unfold prepare, mbind, M_bind, url_baseUrl, mret, M_ret, existsSync,
    mkdirSync, writeFileSync, Date_now, setHeader, modify_res.
  rewrite Hmk.
  destruct (bool_decide _); unfold modify_fs; cbn [fs res clock];
    rewrite Hwr; cbn [fs res clock];
    do 3 eexists; (split; [reflexivity|]); cbn [fs]; apply lookup_insert_eq.
Qed.

(** Properties 9 and 10 of the specification, run: after the ['end'] event
    and after the ['error'] event only the directories are left. *)
Example success_leaves_no_file :
  filesOf (serve (Sample.env (FfEnd "mp4"))
             (Sample.get (JStr Sample.manifest_url)) ∅)
  = {[ "/tmp" := Dir; "/tmp/classplus-dl" := Dir ]}.
Proof. vm_compute. reflexivity. Qed.

Example failure_event_leaves_no_file :
  filesOf (serve (Sample.env (FfError None Sample.cannot_find_ffmpeg))
             (Sample.get (JStr Sample.manifest_url)) ∅)
  = {[ "/tmp" := Dir; "/tmp/classplus-dl" := Dir ]}.
Proof. vm_compute. reflexivity. Qed.

(** C3, at an input where it fails: the manifest is fetched and parsed,
    the disk fills up while the concat list is written, so that
    [writeFileSync] throws after it has created the file.  The exception
    is caught and answered with 500, and the concat-list file of the
    request is still in the temporary directory: the [catch] block deletes
    nothing. *)
Theorem failed_write_leaves_file :
  (serve Sample.env_disk_full (Sample.get (JStr Sample.manifest_url)) ∅).1
  = Fulfilled ∧
  statusCode (responseOf (serve Sample.env_disk_full
                            (Sample.get (JStr Sample.manifest_url)) ∅)) = 500
  ∧ filesOf (serve Sample.env_disk_full
               (Sample.get (JStr Sample.manifest_url)) ∅)
      !! Sample.segments_file = Some (File EmptyString).
Proof. repeat split; vm_compute; reflexivity. Qed.

(** ** The claims about the handler *)

(** C8: a request with method OPTIONS is answered with status 200 and an
    empty body, whatever else it carries. *)
Theorem options_preflight (env : Env) (req : Request)
    (files : gmap string FsEntry) :
  method req = "OPTIONS" →
  (serve env req files).1 = Fulfilled ∧
  statusCode (responseOf (serve env req files)) = 200 ∧
  resBody (responseOf (serve env req files)) = NoBody ∧
  finished (responseOf (serve env req files)) = true.
Proof.
  intros Hm. unfold serve, responseOf.
  destruct (run_options env req (initial_state files) Hm) as [h ->]. done.
Qed.

Lemma options_preflight_witness :
  (serve (Sample.env (FfEnd "mp4")) (Sample.with_method "OPTIONS") ∅).1
  = Fulfilled ∧
  statusCode (responseOf (serve (Sample.env (FfEnd "mp4"))
                            (Sample.with_method "OPTIONS") ∅)) = 200 ∧
  resBody (responseOf (serve (Sample.env (FfEnd "mp4"))
                         (Sample.with_method "OPTIONS") ∅)) = NoBody ∧
  finished (responseOf (serve (Sample.env (FfEnd "mp4"))
                          (Sample.with_method "OPTIONS") ∅)) = true.
Proof. apply options_preflight. reflexivity. Defined.

(** C7: a request whose method is none of GET, POST and OPTIONS is answered
    with status 405, whatever [url] it carries. *)
Theorem method_not_allowed (env : Env) (req : Request)
    (files : gmap string FsEntry) :
  method req ≠ "GET" → method req ≠ "POST" → method req ≠ "OPTIONS" →
  (serve env req files).1 = Fulfilled ∧
  statusCode (responseOf (serve env req files)) = 405 ∧
  resBody (responseOf (serve env req files))
  = JsonBody method_not_allowed_payload.
Proof.
  intros H1 H2 H3. unfold serve, responseOf.
  destruct (run_other_method env req (initial_state files) H3 H2 H1)
    as [h ->].
  done.
Qed.

Lemma method_not_allowed_witness :
  (serve (Sample.env (FfEnd "mp4")) (Sample.with_method "DELETE") ∅).1
  = Fulfilled ∧
  statusCode (responseOf (serve (Sample.env (FfEnd "mp4"))
                            (Sample.with_method "DELETE") ∅)) = 405 ∧
  resBody (responseOf (serve (Sample.env (FfEnd "mp4"))
                         (Sample.with_method "DELETE") ∅))
  = JsonBody method_not_allowed_payload.
Proof. apply method_not_allowed; discriminate. Defined.



(** C10: the method alone decides where [url] is read.  Two POST requests
    with the same body, or two GET requests with the same query, run on
    the same host from the same state, end in the same settlement, the
    same response and the same files, whatever the other location
    holds. *)
Theorem url_source_by_method (env : Env) (r1 r2 : Request) (st : State) :
  method r1 = method r2 →
  (method r1 = "POST" ∧ body r1 = body r2) ∨
  (method r1 = "GET" ∧ query r1 = query r2) →
  run env r1 st = run env r2 st.
Proof.
  intros Hm Hsrc.
  assert (Hurl : request_url r1 = request_url r2).
  { unfold request_url. rewrite <- Hm.
    destruct Hsrc as [[-> ->]|[-> ->]]; reflexivity. }
  unfold run, handler, try_block. by rewrite <- Hm, Hurl.
Qed.

Lemma url_source_by_method_witness :
  run (Sample.env (FfEnd "mp4"))
      {| method := "POST"; query := Some {[ "url" := JStr "q.m3u8" ]};
         body := Some {[ "url" := JStr Sample.manifest_url ]} |}
      (initial_state ∅)
  = run (Sample.env (FfEnd "mp4")) (Sample.post (JStr Sample.manifest_url))
      (initial_state ∅).
Proof. apply url_source_by_method; [reflexivity | left; by split]. Defined.

(** The part of the 400 taxonomy that the handler keeps: for a GET or POST
    request whose [url] is absent, falsy or a string, the status is 400
    exactly when the [url] is missing, or does not contain [.m3u8], or the
    manifest was fetched and parsed and has no segment. *)
Theorem bad_request_iff (env : Env) (req : Request)
    (files : gmap string FsEntry) :
  method req = "GET" ∨ method req = "POST" →
  truthy (request_url req) = false ∨ (∃ s, request_url req = JStr s) →
  statusCode (responseOf (serve env req files)) = 400
  ↔ spec_bad_request env (request_url req).
Proof.
  intros Hm Hty. unfold serve, responseOf. rewrite (run_get_post _ _ _ Hm).
  rewrite <- (guarded_400_iff env req (cors (initial_state files)).2);
    [|reflexivity|done].
  by destruct (try_catch _ _ _) as [[e|s] st'].
Qed.

Lemma bad_request_iff_witness :
  statusCode
    (responseOf (serve (Sample.env (FfEnd "mp4"))
                   (Sample.get (JStr "https://example.com/video.mp4")) ∅))
  = 400
  ↔ spec_bad_request (Sample.env (FfEnd "mp4"))
      (request_url (Sample.get (JStr "https://example.com/video.mp4"))).
Proof.
  apply bad_request_iff; [by left | right; eexists; reflexivity].
Defined.

(** C5, at an input where it fails: a POST request with the body
    [{ url: 5 }].  The check of line 46 calls [includes] on a number, the
    [TypeError] is caught and answered with 500, although [5] does not
    contain [.m3u8] and the check answers 400 to every string that does
    not. *)
Lemma bad_request_not_for_number :
  ¬ (statusCode (responseOf (serve (Sample.env (FfEnd "mp4"))
                               (Sample.post (JNum 5)) ∅)) = 400
     ↔ spec_bad_request (Sample.env (FfEnd "mp4"))
         (request_url (Sample.post (JNum 5)))).
Proof.
  intros [_ H].
  assert (Hc : spec_bad_request (Sample.env (FfEnd "mp4"))
                 (request_url (Sample.post (JNum 5)))).
  { right; left. intros (s & Hs & _). discriminate Hs. }
  apply H in Hc. vm_compute in Hc. discriminate Hc.
Qed.

Example number_url_is_500 :
  statusCode (responseOf (serve (Sample.env (FfEnd "mp4"))
                            (Sample.post (JNum 5)) ∅)) = 500.
Proof. reflexivity. Qed.

(** C4, at an input where it fails: the transcoder fires its ['error']
    event before it has written anything.  The error is not caught: the
    handler's promise is rejected with it and no error response is
    sent. *)
Theorem transcoder_error_escapes :
  (serve (Sample.env (FfError None Sample.cannot_find_ffmpeg))
     (Sample.get (JStr Sample.manifest_url)) ∅).1
  = Rejected Sample.cannot_find_ffmpeg ∧
  resBody (responseOf
             (serve (Sample.env (FfError None Sample.cannot_find_ffmpeg))
                (Sample.get (JStr Sample.manifest_url)) ∅)) = NoBody ∧
  finished (responseOf
              (serve (Sample.env (FfError None Sample.cannot_find_ffmpeg))
                 (Sample.get (JStr Sample.manifest_url)) ∅)) = false.
Proof. repeat split; vm_compute; reflexivity. Qed.

(** C6, at an input where it fails: after a transcoder failure the status
    of the response is still the 200 it started with, not 500. *)
Theorem transcoder_error_not_500 :
  statusCode
    (responseOf (serve (Sample.env (FfError None Sample.cannot_find_ffmpeg))
                   (Sample.post (JStr Sample.manifest_url)) ∅)) = 200 ∧
  (serve (Sample.env (FfError None Sample.cannot_find_ffmpeg))
     (Sample.post (JStr Sample.manifest_url)) ∅).1
  = Rejected Sample.cannot_find_ffmpeg.
Proof. split; vm_compute; reflexivity. Qed.

(** * Further properties of the handler *)

(** ** The steps, case by case *)

(** The clean-up never throws, leaves the response and the clock alone and
    touches no file but the two it is given. *)
Lemma cleanup_frame (env : Env) (f o : string) (st : State) :
  ∃ st', cleanup env f o st = (inr (), st') ∧
         res st' = res st ∧ clock st' = clock st ∧
         ∀ p, p ≠ f → p ≠ o → fs st' !! p = fs st !! p.
Proof.
  unfold cleanup, try_catch, mbind, M_bind, mret, M_ret, existsSync,
    unlinkSync, throw, modify_fs.
  destruct (bool_decide (is_Some (fs st !! f)));
    [destruct (unlink_error env f)|]; cbn [fs res clock];
    try (eexists; split; [reflexivity|]; by repeat split);
    match goal with |- context [bool_decide ?P] => destruct (bool_decide P) end;
    try destruct (unlink_error env o); cbn [fs res clock];
    eexists; (split; [reflexivity|]); repeat split; cbn [fs];
    intros p Hf Ho; rewrite ?lookup_delete_ne by done; reflexivity.
Qed.

Lemma transcode_cases (env : Env) (f o : string) (st : State) :
  ∃ s st', transcode env f o st = (inr s, st') ∧
    clock st' = clock st ∧
    (∀ p, p ≠ f → p ≠ o → fs st' !! p = fs st !! p) ∧
    headers (res st') = headers (res st) ∧
    statusCode (res st') = statusCode (res st) ∧
    match ffmpeg_run env f (fs st) with
    | FfThrows e => s = Rejected e ∧ st' = st
    | FfError None e => s = Rejected e ∧ res st' = res st
    | FfError (Some bytes) e =>
        s = Rejected e ∧ resBody (res st') = StreamBody bytes ∧
        finished (res st') = true
    | FfEnd bytes =>
        s = Fulfilled ∧ resBody (res st') = StreamBody bytes ∧
        finished (res st') = true
    end.
Proof.
  unfold transcode.
  destruct (ffmpeg_run env f (fs st)) as [e|[bytes|] e|bytes].
  - by exists (Rejected e), st.
  - unfold mbind, M_bind. cbn [pipe send modify_res mret M_ret].
    match goal with |- context [cleanup env f o ?s] =>
      destruct (cleanup_frame env f o s) as (st' & -> & Hr & Hc & Hf) end.
    exists (Rejected e), st'. rewrite Hr. cbn. repeat split; eauto.
  - unfold mbind, M_bind. cbn [pipe send modify_res mret M_ret].
    destruct (cleanup_frame env f o st) as (st' & -> & Hr & Hc & Hf).
    exists (Rejected e), st'. rewrite Hr. repeat split; eauto.
  - unfold mbind, M_bind. cbn [pipe send modify_res mret M_ret].
    match goal with |- context [cleanup env f o ?s] =>
      destruct (cleanup_frame env f o s) as (st' & -> & Hr & Hc & Hf) end.
    exists Fulfilled, st'. rewrite Hr. cbn. repeat split; eauto.
Qed.

(** A recursive [mkdir] changes no path but the ones it is given. *)
Lemma mkdir_missing_frame (dirs : list string) (m : gmap string FsEntry)
    (p : string) :
  p ∉ dirs → foldr mkdir_missing m dirs !! p = m !! p.
Proof.
  induction dirs as [|d dirs IH]; intros H; [done|].
  apply not_elem_of_cons in H as [Hne Hnot]. cbn [foldr].
  unfold mkdir_missing at 1.
  destruct (foldr mkdir_missing m dirs !! d); [by apply IH|].
  rewrite lookup_insert_ne by done. by apply IH.
Qed.

Lemma prepare_not_string (env : Env) (url : JsVal) (segs : list Segment)
    (st : State) :
  (∀ s, url ≠ JStr s) →
  prepare env url segs st
  = (inl (TypeError "url.substring is not a function"), st).
Proof. intros H. destruct url; try reflexivity. by destruct (H s). Qed.

Lemma prepare_cases (env : Env) (s : string) (segs : list Segment)
    (st : State) :
  (∃ e st1,
      prepare env (JStr s) segs st = (inl e, st1) ∧
      res st1 = res st ∧
      (∀ p, p ≠ tempDir env → p ∉ ancestors (tempDir env) →
            p ≠ segmentsListFile env (date_now env (S (clock st))) →
            fs st1 !! p = fs st !! p))
  ∨ (∃ st1,
      prepare env (JStr s) segs st
      = (inr (segmentsListFile env (date_now env (S (clock st))),
              outputFile env (date_now env (clock st))), st1) ∧
      headers (res st1)
      = <["Content-Disposition" :=
            contentDisposition (date_now env (S (S (clock st))))]>
          (<["Content-Type" := "video/mp4"]> (headers (res st))) ∧
      statusCode (res st1) = statusCode (res st) ∧
      resBody (res st1) = resBody (res st) ∧
      finished (res st1) = finished (res st) ∧
      clock st1 = S (S (S (clock st))) ∧
      fs st1 !! segmentsListFile env (date_now env (S (clock st)))
      = Some (File (segmentsList (baseUrl s) segs)) ∧
      (∀ p, p ≠ tempDir env → p ∉ ancestors (tempDir env) →
            p ≠ segmentsListFile env (date_now env (S (clock st))) →
            fs st1 !! p = fs st !! p)).
Proof.
  unfold prepare, mbind, M_bind, url_baseUrl, mret, M_ret, existsSync,
    mkdirSync, writeFileSync, Date_now, setHeader, modify_res, throw,
    modify_fs.
  fold (tempDir env).
  destruct (bool_decide (is_Some (fs st !! tempDir env)));
    [|destruct (mkdir_error env (tempDir env)) as [e|]]; cbn [fs res clock];
    try (left; do 2 eexists; split; [reflexivity|]; by split);
    fold (segmentsListFile env (date_now env (S (clock st))));
    fold (outputFile env (date_now env (clock st)));
    (destruct (write_error env (segmentsListFile env (date_now env (S (clock st)))))
      as [[[] e]|]; cbn [fs res clock];
     [ left; do 2 eexists; split; [reflexivity|]; split; [reflexivity|];
       cbn [fs]; intros p H1 H2 H3; rewrite ?lookup_insert_ne by done;
       rewrite ?mkdir_missing_frame by (by apply not_elem_of_cons);
       reflexivity
     | left; do 2 eexists; split; [reflexivity|]; split; [reflexivity|];
       cbn [fs]; intros p H1 H2 H3; rewrite ?lookup_insert_ne by done;
       rewrite ?mkdir_missing_frame by (by apply not_elem_of_cons);
       reflexivity
     | right; eexists; split; [reflexivity|]; cbn [fs res clock headers
         statusCode resBody finished]; repeat split;
       [ apply lookup_insert_eq
       | intros p H1 H2 H3; rewrite ?lookup_insert_ne by done;
         rewrite ?mkdir_missing_frame by (by apply not_elem_of_cons);
         reflexivity ] ]).
Qed.

Lemma url_includes_cases (url : JsVal) (p : string) :
  (∃ b, url_includes url p = mret b) ∨
  (url_includes url p = throw (TypeError "url.includes is not a function") ∧
   (∀ s, url ≠ JStr s) ∧ (∀ xs, url ≠ JArr xs)).
Proof. destruct url; cbn; eauto. Qed.

(** Where the guarded block ends: an early answer, an exception of the
    preparation, or the transcoder. *)
Lemma guarded_outcome (env : Env) (req : Request) (st : State) :
  (∃ payload,
      try_catch (try_block env req) catch_block st = respond 400 payload st ∧
      has_error_field (JsonBody payload))
  ∨ (∃ e, try_catch (try_block env req) catch_block st = catch_block e st)
  ∨ (∃ s segs e st1,
        request_url req = JStr s ∧
        prepare env (JStr s) segs st = (inl e, st1) ∧
        try_catch (try_block env req) catch_block st = catch_block e st1)
  ∨ (∃ s segs f o st1,
        request_url req = JStr s ∧
        prepare env (JStr s) segs st = (inr (f, o), st1) ∧
        try_catch (try_block env req) catch_block st = transcode env f o st1).
Proof.
  destruct (truthy (request_url req)) eqn:Htr.
  2:{ left. eexists. split; [by apply guarded_falsy|]. by do 2 eexists. }
  destruct (url_includes_cases (request_url req) ".m3u8")
    as [[[] Hinc]|(Hinc & _)].
  3:{ right; left. eexists. by apply guarded_no_method. }
  2:{ left. eexists. split; [by apply guarded_invalid|]. by do 2 eexists. }
  rewrite (guarded_valid _ _ _ Htr Hinc).
  destruct (axios_get env (request_url req)) as [e|text] eqn:Hget.
  { right; left. eexists. by apply pipeline_fetch_fails. }
  destruct (m3u8_parse env text) as [e|manifest] eqn:Hparse.
  { right; left. eexists. by eapply pipeline_parse_fails. }
  rewrite (pipeline_parsed _ _ _ _ _ Hget Hparse).
  destruct (segments manifest) as [[|seg segs]|].
  1,3: left; eexists; split; [reflexivity|]; by do 2 eexists.
  destruct (request_url req) as [| | | |s| |] eqn:Hurl.
  5:{ unfold try_catch, build_and_transcode, mbind, M_bind.
      destruct (prepare env (JStr s) (seg :: segs) st) as [[e|[f o]] st1] eqn:Hp.
      - right; right; left. by exists s, (seg :: segs), e, st1.
      - right; right; right. exists s, (seg :: segs), f, o, st1.
        repeat split; try done. cbn [fst snd].
        destruct (transcode_cases env f o st1) as (r & st' & -> & _). done. }
  all: right; left; eexists;
    unfold try_catch, build_and_transcode, mbind, M_bind;
    rewrite prepare_not_string by done; reflexivity.
Qed.

Lemma catch_block_payload (e : JsError) (st : State) :
  catch_block e st
  = (inr Fulfilled,
     {| res := {| headers := <["Content-Type" := json_content_type]>
                               (headers (res st));
                  statusCode := classify e;
                  resBody := JsonBody (catch_payload e); finished := true |};
        fs := fs st; clock := clock st |}).
Proof.
  unfold catch_block, catch_payload, classify.
  destruct (response e) as [c|]; [|reflexivity].
  destruct (c =? 404); [reflexivity|]. destruct (c =? 403); reflexivity.
Qed.

Lemma catch_payload_error (e : JsError) :
  has_error_field (JsonBody (catch_payload e)).
Proof.
  unfold catch_payload.
  destruct (classify e =? 404); [|destruct (classify e =? 403)];
    by do 2 eexists.
Qed.

(** What the guarded block leaves, in one statement: it never throws; it
    keeps every header but the two of the download; it touches no file
    but the directory and the two files named after the clock; and it
    ends either in an error answer or in the transcoder. *)
Lemma guarded_summary (env : Env) (req : Request) (st : State) :
  ∃ r st',
    try_catch (try_block env req) catch_block st = (inr r, st') ∧
    (∀ k, k ≠ "Content-Type" → k ≠ "Content-Disposition" →
          headers (res st') !! k = headers (res st) !! k) ∧
    (∀ p, p ≠ tempDir env → p ∉ ancestors (tempDir env) →
          p ≠ segmentsListFile env (date_now env (S (clock st))) →
          p ≠ outputFile env (date_now env (clock st)) →
          fs st' !! p = fs st !! p) ∧
    ((r = Fulfilled ∧
      (statusCode (res st') = 400 ∧ fs st' = fs st
       ∨ statusCode (res st') = 403 ∨ statusCode (res st') = 404
       ∨ statusCode (res st') = 500) ∧
      has_error_field (resBody (res st')) ∧
      finished (res st') = true ∧
      headers (res st')
      = <["Content-Type" := json_content_type]> (headers (res st)))
     ∨ (statusCode (res st') = statusCode (res st) ∧
        ((r = Fulfilled ∧ finished (res st') = true ∧
          ∃ bytes, resBody (res st') = StreamBody bytes)
         ∨ (∃ e, r = Rejected e ∧
              ((resBody (res st') = resBody (res st) ∧
                finished (res st') = finished (res st))
               ∨ (finished (res st') = true ∧
                  ∃ bytes, resBody (res st') = StreamBody bytes)))))).
Proof.
  destruct (guarded_outcome env req st)
    as [(payload & -> & Hp)|[(e & ->)|[(s & segs & e & st1 & Hu & Hprep & ->)
       |(s & segs & f & o & st1 & Hu & Hprep & ->)]]].
  - rewrite respond_run. do 2 eexists. split; [reflexivity|].
    cbn [res fs headers statusCode resBody finished].
    split; [intros k H1 H2; by rewrite lookup_insert_ne|].
    split; [done|]. left. split; [done|]. split; [by left|]. done.
  - rewrite catch_block_payload. do 2 eexists. split; [reflexivity|].
    cbn [res fs headers statusCode resBody finished].
    split; [intros k H1 H2; by rewrite lookup_insert_ne|].
    split; [done|]. left. split; [done|].
    split; [|split; [apply catch_payload_error|done]].
    destruct (classify_range e) as [->|[->| ->]]; auto.
  - rewrite catch_block_payload. do 2 eexists. split; [reflexivity|].
    cbn [res fs headers statusCode resBody finished].
    destruct (prepare_cases env s segs st)
      as [(e' & st2 & Hp' & Hres & Hfr)|(st2 & Hp' & _)];
      rewrite Hprep in Hp'; [|discriminate].
    injection Hp' as <- <-. rewrite Hres.
    split; [intros k H1 H2; by rewrite lookup_insert_ne|].
    split; [intros p H1 H2 H3 H4; by apply Hfr|]. left. split; [done|].
    split; [|split; [apply catch_payload_error|done]].
    destruct (classify_range e) as [->|[->| ->]]; auto.
  - destruct (prepare_cases env s segs st)
      as [(e' & st2 & Hp' & _)|(st2 & Hp' & Hh & Hs & Hb & Hfin & Hc & Hfile & Hfr)];
      rewrite Hprep in Hp'; [discriminate|].
    injection Hp' as -> -> <-.
    destruct (transcode_cases env
                (segmentsListFile env (date_now env (S (clock st))))
                (outputFile env (date_now env (clock st))) st1)
      as (r & st' & -> & Hc' & Hfr' & Hh' & Hs' & Hff).
    exists r, st'. split; [reflexivity|]. split; [|split].
    + intros k H1 H2. rewrite Hh', Hh. by rewrite !lookup_insert_ne.
    + intros p H1 H2 H3 H4. rewrite Hfr' by done. by apply Hfr.
    + right. split; [congruence|].
      destruct (ffmpeg_run env _ (fs st1)) as [e|[bytes|] e|bytes].
      * destruct Hff as [-> ->]. right. exists e. split; [done|]. left. auto.
      * destruct Hff as (-> & Hb' & Hfin'). right. exists e. split; [done|].
        right. eauto.
      * destruct Hff as [-> Hr']. right. exists e. split; [done|]. left.
        rewrite Hr'. auto.
      * destruct Hff as (-> & Hb' & Hfin'). left. eauto.
Qed.

Lemma cors_run (st : State) :
  ∃ st0, cors st = (inr (), st0) ∧
    has_cors (res st0) ∧
    (∀ k, k ≠ "Access-Control-Allow-Credentials" →
          k ≠ "Access-Control-Allow-Origin" →
          k ≠ "Access-Control-Allow-Methods" →
          k ≠ "Access-Control-Allow-Headers" →
          headers (res st0) !! k = headers (res st) !! k) ∧
    statusCode (res st0) = statusCode (res st) ∧
    resBody (res st0) = resBody (res st) ∧
    finished (res st0) = finished (res st) ∧
    fs st0 = fs st ∧ clock st0 = clock st.
Proof.
  eexists. split; [reflexivity|]. cbn [res fs clock headers statusCode resBody
    finished]. unfold has_cors. cbn [headers].
  repeat split.
  - rewrite !lookup_insert_ne by done. apply lookup_insert_eq.
  - rewrite !lookup_insert_ne by done. apply lookup_insert_eq.
  - rewrite !lookup_insert_ne by done. apply lookup_insert_eq.
  - rewrite lookup_insert_eq. eauto.
  - intros k H1 H2 H3 H4. by rewrite !lookup_insert_ne.
Qed.

Lemma has_cors_kept (r r' : Response) :
  (∀ k, k ≠ "Content-Type" → k ≠ "Content-Disposition" →
        headers r' !! k = headers r !! k) →
  has_cors r → has_cors r'.
Proof.
  intros H (H1 & H2 & H3 & H4). unfold has_cors.
  rewrite !H by done. done.
Qed.

Lemma run_unfold (env : Env) (req : Request) (st : State) :
  run env req st
  = if String.eqb (method req) "OPTIONS" then
      (Fulfilled,
       {| res := {| headers := headers (res (cors st).2); statusCode := 200;
                    resBody := resBody (res st); finished := true |};
          fs := fs st; clock := clock st |})
    else if negb (String.eqb (method req) "POST")
            && negb (String.eqb (method req) "GET") then
      (Fulfilled,
       {| res := {| headers := <["Content-Type" := json_content_type]>
                                 (headers (res (cors st).2));
                    statusCode := 405;
                    resBody := JsonBody method_not_allowed_payload;
                    finished := true |};
          fs := fs st; clock := clock st |})
    else
      match try_catch (try_block env req) catch_block (cors st).2 with
      | (inl e, st') => (Rejected e, st')
      | (inr s, st') => (s, st')
      end.
Proof.
  unfold run, handler.
  destruct (String.eqb (method req) "OPTIONS"); [reflexivity|].
  destruct (negb (String.eqb (method req) "POST")
            && negb (String.eqb (method req) "GET")); reflexivity.
Qed.

(** Every run, in one statement. *)
Lemma run_summary (env : Env) (req : Request) (st : State) :
  ∃ r st',
    run env req st = (r, st') ∧
    has_cors (res st') ∧
    (∀ p, p ≠ tempDir env → p ∉ ancestors (tempDir env) →
          p ≠ segmentsListFile env (date_now env (S (clock st))) →
          p ≠ outputFile env (date_now env (clock st)) →
          fs st' !! p = fs st !! p) ∧
    ((r = Fulfilled ∧ finished (res st') = true ∧
      headers (res st') !! "Content-Disposition"
      = headers (res st) !! "Content-Disposition" ∧
      ((method req = "OPTIONS" ∧ statusCode (res st') = 200 ∧
        resBody (res st') = resBody (res st) ∧ fs st' = fs st ∧
        headers (res st') !! "Content-Type"
        = headers (res st) !! "Content-Type")
       ∨ (has_error_field (resBody (res st')) ∧
          headers (res st') !! "Content-Type" = Some json_content_type ∧
          ((statusCode (res st') = 405 ∨ statusCode (res st') = 400) ∧
           fs st' = fs st
           ∨ statusCode (res st') = 403 ∨ statusCode (res st') = 404
           ∨ statusCode (res st') = 500))))
     ∨ ((method req = "GET" ∨ method req = "POST") ∧
        statusCode (res st') = statusCode (res st) ∧
        ((r = Fulfilled ∧ finished (res st') = true ∧
          ∃ bytes, resBody (res st') = StreamBody bytes)
         ∨ (∃ e, r = Rejected e ∧
              ((resBody (res st') = resBody (res st) ∧
                finished (res st') = finished (res st))
               ∨ (finished (res st') = true ∧
                  ∃ bytes, resBody (res st') = StreamBody bytes)))))).
Proof.
  rewrite run_unfold.
  destruct (cors_run st)
    as (st0 & Hcors & Hhas & Hoth & Hs0 & Hb0 & Hf0 & Hfs0 & Hc0).
  rewrite Hcors. cbn [snd].
  destruct (String.eqb_spec (method req) "OPTIONS") as [Hm|Hm].
  { do 2 eexists. split; [reflexivity|].
    cbn [res fs headers statusCode resBody finished].
    split; [exact Hhas|]. split; [done|]. left.
    rewrite !Hoth by done. split; [done|]. split; [done|]. split; [done|].
    left. done. }
  destruct (negb (String.eqb (method req) "POST")
            && negb (String.eqb (method req) "GET")) eqn:Hpg.
  { do 2 eexists. split; [reflexivity|].
    cbn [res fs headers statusCode resBody finished].
    split.
    { eapply has_cors_kept; [|exact Hhas]. intros k H1 H2. cbn [headers].
      by rewrite lookup_insert_ne. }
    split; [done|]. left. split; [done|]. split; [done|].
    split; [rewrite lookup_insert_ne by done; by apply Hoth|].
    right. split; [by do 2 eexists|].
    split; [apply lookup_insert_eq|]. left. auto. }
  assert (Hgp : method req = "GET" ∨ method req = "POST").
  { apply andb_false_iff in Hpg as [H|H];
      apply negb_false_iff, String.eqb_eq in H; auto. }
  destruct (guarded_summary env req st0)
    as (r & st' & -> & Hk & Hfr & Hcase).
  exists r, st'. split; [reflexivity|].
  split; [by eapply has_cors_kept|].
  split; [intros p H1 H2 H3 H4; rewrite <- Hfs0; apply Hfr; rewrite ?Hc0;
          done|].
  destruct Hcase as [(-> & Hst & Herr & Hfin & Hh)|(Hst & Hrest)].
  - left. rewrite Hh. split; [done|]. split; [done|].
    split; [rewrite lookup_insert_ne by done; by apply Hoth|].
    right. split; [done|]. split; [apply lookup_insert_eq|].
    destruct Hst as [[H4 Hfs]|[?|[?|?]]]; auto.
    left. split; [auto|congruence].
  - right. split; [auto|]. split; [congruence|].
    destruct Hrest as [?|(e & -> & [[Hb Hf]|?])]; auto.
    + right. exists e. split; [done|]. left. split; congruence.
    + right. exists e. auto.
Qed.

(** X1: whatever the request and however the run ends, the response carries
    the four CORS headers of lines 10-16; no later step removes or
    overwrites them. *)
Theorem cors_on_every_response (env : Env) (req : Request) (st : State) :
  has_cors (res (run env req st).2).
Proof.
  destruct (run_summary env req st) as (r & st' & -> & H & _). exact H.
Qed.

(** X2: the status of the response is always one of 200, 400, 403, 404,
    405 and 500. *)
Theorem status_range (env : Env) (req : Request)
    (files : gmap string FsEntry) :
  statusCode (responseOf (serve env req files)) ∈ [200; 400; 403; 404; 405; 500].
Proof.
  unfold serve, responseOf.
  destruct (run_summary env req (initial_state files))
    as (r & st' & -> & _ & _ & Hcase). cbn [snd].
  destruct Hcase as [(_ & _ & _ & [(_ & -> & _)
                                     |(_ & _ & [[[->| ->] _]|[->|[->| ->]]])])
                    |(_ & -> & _)]; cbn; set_solver.
Qed.

(** X3: whenever the status is not 200, the handler's promise is fulfilled,
    the response is finished and its body is a JSON object whose first
    field is [error]. *)
Theorem error_status_has_error_body (env : Env) (req : Request)
    (files : gmap string FsEntry) :
  statusCode (responseOf (serve env req files)) ≠ 200 →
  (serve env req files).1 = Fulfilled ∧
  has_error_field (resBody (responseOf (serve env req files))) ∧
  finished (responseOf (serve env req files)) = true.
Proof.
  unfold serve, responseOf.
  destruct (run_summary env req (initial_state files))
    as (r & st' & -> & _ & _ & Hcase). cbn [fst snd]. intros Hne.
  destruct Hcase as [(-> & Hfin & _ & [(_ & Hs & _)|(Herr & _)])
                    |(_ & Hs & _)]; done.
Qed.

(** X4: a response whose status is not 200 declares the JSON content type
    that [res.json] sets and carries no [Content-Disposition] header: the
    two headers of the download are set only after the concat list has been
    written, and no exception is caught after that point. *)
Theorem download_headers_only_on_200 (env : Env) (req : Request)
    (files : gmap string FsEntry) :
  statusCode (responseOf (serve env req files)) ≠ 200 →
  headers (responseOf (serve env req files)) !! "Content-Type"
  = Some json_content_type ∧
  headers (responseOf (serve env req files)) !! "Content-Disposition" = None.
Proof.
  unfold serve, responseOf.
  destruct (run_summary env req (initial_state files))
    as (r & st' & -> & _ & _ & Hcase). cbn [fst snd]. intros Hne.
  destruct Hcase as [(_ & _ & HCD & [(_ & Hs & _)|(_ & HCT & _)])
                    |(_ & Hs & _)]; done.
Qed.

(** X5: whenever the handler's promise is rejected, the status is still 200
    and the body is empty or the bytes piped so far, never a JSON error. *)
Theorem rejected_sends_no_error (env : Env) (req : Request)
    (files : gmap string FsEntry) (e : JsError) :
  (serve env req files).1 = Rejected e →
  statusCode (responseOf (serve env req files)) = 200 ∧
  (resBody (responseOf (serve env req files)) = NoBody
   ∨ ∃ bytes, resBody (responseOf (serve env req files)) = StreamBody bytes).
Proof.
  unfold serve, responseOf.
  destruct (run_summary env req (initial_state files))
    as (r & st' & -> & _ & _ & Hcase). cbn [fst snd]. intros ->.
  destruct Hcase as [(? & _)|(_ & Hs & [(? & _)|(e' & _ & [[Hb _]|[_ Hb]])])];
    try done; auto.
Qed.

(** X6: whenever the handler's promise is fulfilled, the response has been
    finished. *)
Theorem fulfilled_is_finished (env : Env) (req : Request)
    (files : gmap string FsEntry) :
  (serve env req files).1 = Fulfilled →
  finished (responseOf (serve env req files)) = true.
Proof.
  unfold serve, responseOf.
  destruct (run_summary env req (initial_state files))
    as (r & st' & -> & _ & _ & Hcase). cbn [fst snd]. intros ->.
  destruct Hcase as [(_ & ? & _)|(_ & _ & [(_ & ? & _)|(e' & ? & _)])]; done.
Qed.

(** X7: an OPTIONS request, and any request answered with 400 or 405,
    leaves the file system exactly as it was: not even the temporary
    directory is created. *)
Theorem refusal_touches_no_file (env : Env) (req : Request)
    (files : gmap string FsEntry) :
  method req = "OPTIONS"
  ∨ statusCode (responseOf (serve env req files)) = 400
  ∨ statusCode (responseOf (serve env req files)) = 405 →
  filesOf (serve env req files) = files.
Proof.
  unfold serve, responseOf, filesOf. intros [Hm|Hc].
  { rewrite run_unfold, Hm. reflexivity. }
  revert Hc.
  destruct (run_summary env req (initial_state files))
    as (r & st' & -> & _ & _ & Hcase). cbn [fst snd]. intros Hc.
  destruct Hcase as [(_ & _ & _ & [(_ & _ & _ & ? & _)|(_ & _ & [[_ ?]|Hs])])
                    |(Hm & Hs & _)]; try done.
  - destruct Hc as [Hc|Hc], Hs as [Hs|[Hs|Hs]]; lia.
  - cbn in Hs. destruct Hc; lia.
Qed.


Lemma classify_not_200 (e : JsError) : classify e ≠ 200.
Proof. destruct (classify_range e) as [->|[->| ->]]; lia. Qed.

(** X9: a [url] that is an array (a repeated query parameter) never reaches
    the transcoder: the promise is fulfilled with a JSON error, the status
    is not 200 and no file is touched. *)
Theorem array_url_never_transcodes (env : Env) (req : Request)
    (files : gmap string FsEntry) (xs : list JsVal) :
  method req = "GET" ∨ method req = "POST" →
  request_url req = JArr xs →
  (serve env req files).1 = Fulfilled ∧
  statusCode (responseOf (serve env req files)) ≠ 200 ∧
  has_error_field (resBody (responseOf (serve env req files))) ∧
  filesOf (serve env req files) = files.
Proof.
  intros Hm Hurl. unfold serve, responseOf, filesOf.
  rewrite (run_get_post _ _ _ Hm).
  destruct (guarded_outcome env req (cors (initial_state files)).2)
    as [(payload & -> & Hp)|[(e & ->)|[(s & segs & e & st1 & Hu & _)
       |(s & segs & f & o & st1 & Hu & _)]]]; try congruence.
  - rewrite respond_run. cbn. done.
  - rewrite catch_block_payload. cbn. repeat split.
    + apply classify_not_200.
    + apply catch_payload_error.
Qed.

Lemma prepare_ok (env : Env) (s : string) (segs : list Segment) (st : State) :
  is_Some (fs st !! tempDir env) ∨ mkdir_error env (tempDir env) = None →
  write_error env (segmentsListFile env (date_now env (S (clock st)))) = None →
  ∃ st1,
    prepare env (JStr s) segs st
    = (inr (segmentsListFile env (date_now env (S (clock st))),
            outputFile env (date_now env (clock st))), st1) ∧
    headers (res st1)
    = <["Content-Disposition" :=
          contentDisposition (date_now env (S (S (clock st))))]>
        (<["Content-Type" := "video/mp4"]> (headers (res st))) ∧
    statusCode (res st1) = statusCode (res st) ∧
    fs st1 !! segmentsListFile env (date_now env (S (clock st)))
    = Some (File (segmentsList (baseUrl s) segs)).
Proof.
  intros Hdir Hwr.
  destruct (prepare_cases env s segs st)
    as [(e & st1 & Hp & _)|(st1 & Hp & Hh & Hs & _ & _ & _ & Hf & _)].
  2:{ exists st1. auto. }
  exfalso. revert Hp.
  unfold prepare, mbind, M_bind, url_baseUrl, mret, M_ret, existsSync,
    mkdirSync, writeFileSync, Date_now, setHeader, modify_res, throw,
    modify_fs.
  fold (tempDir env).
  destruct (bool_decide (is_Some (fs st !! tempDir env))) eqn:Hex;
    cbn [fs res clock].
  - fold (segmentsListFile env (date_now env (S (clock st)))).
    rewrite Hwr. discriminate.
  - apply bool_decide_eq_false in Hex. destruct Hdir as [|Hmk]; [done|].
    rewrite Hmk. cbn [fs res clock].
    fold (segmentsListFile env (date_now env (S (clock st)))).
    rewrite Hwr. discriminate.
Qed.

(** A request that reaches the builder on a host that can write ends in the
    transcoder, started on the concat list. *)
Lemma run_reaches_transcoder (env : Env) (req : Request) (s : string)
    (segs : list Segment) (files : gmap string FsEntry) :
  reaches_builder env req s segs → can_prepare env files →
  ∃ st1,
    serve env req files
    = match transcode env (segmentsListFile env (date_now env 1))
              (outputFile env (date_now env 0)) st1 with
      | (inl e, st') => (Rejected e, st')
      | (inr r, st') => (r, st')
      end ∧
    headers (res st1) !! "Content-Type" = Some "video/mp4" ∧
    headers (res st1) !! "Content-Disposition"
    = Some (contentDisposition (date_now env 2)) ∧
    statusCode (res st1) = 200 ∧
    fs st1 !! segmentsListFile env (date_now env 1)
    = Some (File (segmentsList (baseUrl s) segs)).
Proof.
  intros (Hm & Hurl & Hinc & Hne & text & manifest & Hget & Hparse & Hsegs)
    [Hdir Hwr].
  unfold serve. rewrite (run_get_post _ _ _ Hm).
  rewrite guarded_valid; rewrite ?Hurl.
  2:{ cbn. destruct s; [discriminate|reflexivity]. }
  2:{ cbn. by rewrite Hinc. }
  rewrite (pipeline_parsed _ _ _ _ _ Hget Hparse), Hsegs.
  destruct segs as [|seg segs]; [done|].
  destruct (prepare_ok env s (seg :: segs) (cors (initial_state files)).2)
    as (st1 & Hp & Hh & Hs & Hf); [exact Hdir|exact Hwr|].
  change (clock (cors (initial_state files)).2) with 0%nat in *.
  exists st1. unfold try_catch, build_and_transcode, mbind, M_bind.
  rewrite Hp. cbn [fst snd].
  destruct (transcode_cases env (segmentsListFile env (date_now env 1))
              (outputFile env (date_now env 0)) st1) as (r & st' & -> & _).
  split; [reflexivity|]. rewrite Hh.
  split; [rewrite lookup_insert_ne by done; apply lookup_insert_eq|].
  split; [apply lookup_insert_eq|]. split; [exact Hs|exact Hf].
Qed.

(** X14: when the request reaches the builder, the host can write, and the
    transcoder ends on the concat list, the promise is fulfilled with
    status 200, the transcoder's bytes as the body, [Content-Type]
    [video/mp4] and an attachment name made of the third clock reading,
    whether or not the clean-up succeeds. *)
Theorem streaming_success (env : Env) (req : Request) (s : string)
    (segs : list Segment) (files : gmap string FsEntry) (bytes : string) :
  reaches_builder env req s segs →
  can_prepare env files →
  (∀ files',
     files' !! segmentsListFile env (date_now env 1)
     = Some (File (segmentsList (baseUrl s) segs)) →
     ffmpeg_run env (segmentsListFile env (date_now env 1)) files'
     = FfEnd bytes) →
  (serve env req files).1 = Fulfilled ∧
  statusCode (responseOf (serve env req files)) = 200 ∧
  resBody (responseOf (serve env req files)) = StreamBody bytes ∧
  finished (responseOf (serve env req files)) = true ∧
  headers (responseOf (serve env req files)) !! "Content-Type"
  = Some "video/mp4" ∧
  headers (responseOf (serve env req files)) !! "Content-Disposition"
  = Some (contentDisposition (date_now env 2)).
Proof.
  intros Hreach Hprep Hff. unfold responseOf.
  destruct (run_reaches_transcoder env req s segs files Hreach Hprep)
    as (st1 & -> & Hct & Hcd & Hs & Hf).
  destruct (transcode_cases env (segmentsListFile env (date_now env 1))
              (outputFile env (date_now env 0)) st1)
    as (r & st' & -> & _ & _ & Hh & Hs' & Hcase).
  rewrite (Hff _ Hf) in Hcase. destruct Hcase as (-> & Hb & Hfin).
  cbn [fst snd]. rewrite Hh, Hs'. auto 10.
Qed.

(** X15: when the transcoder fires one of its terminal events and deleting
    works, neither the concat list nor the output path is left. *)
Theorem temp_files_removed_after_event (env : Env) (req : Request)
    (s : string) (segs : list Segment) (files : gmap string FsEntry) :
  reaches_builder env req s segs →
  can_prepare env files →
  (∀ p, unlink_error env p = None) →
  (∀ files' e,
     ffmpeg_run env (segmentsListFile env (date_now env 1)) files'
     ≠ FfThrows e) →
  filesOf (serve env req files) !! segmentsListFile env (date_now env 1) = None ∧
  filesOf (serve env req files) !! outputFile env (date_now env 0) = None.
Proof.
  intros Hreach Hprep Hun Hff. unfold filesOf.
  destruct (run_reaches_transcoder env req s segs files Hreach Hprep)
    as (st1 & -> & _).
  pose proof (transcode_cleans_up env (segmentsListFile env (date_now env 1))
                (outputFile env (date_now env 0)) st1 Hun (Hff (fs st1))) as H.
  by destruct (transcode env _ _ st1) as [[e|r] st'].
Qed.

Lemma cleanup_unlink_fails (env : Env) (f o : string) (st : State)
    (e : JsError) :
  is_Some (fs st !! f) → unlink_error env f = Some e →
  cleanup env f o st = (inr (), st).
Proof.
  intros Hex Hun. unfold cleanup, try_catch, mbind, M_bind, existsSync,
    unlinkSync. rewrite bool_decide_eq_true_2 by done. by rewrite Hun.
Qed.

(** X16: a failure to delete the concat list is swallowed: the promise is
    still fulfilled with status 200, and the file stays with its
    content. *)
Theorem cleanup_failure_is_silent (env : Env) (req : Request) (s : string)
    (segs : list Segment) (files : gmap string FsEntry) (bytes : string)
    (e : JsError) :
  reaches_builder env req s segs →
  can_prepare env files →
  (∀ files',
     ffmpeg_run env (segmentsListFile env (date_now env 1)) files'
     = FfEnd bytes) →
  unlink_error env (segmentsListFile env (date_now env 1)) = Some e →
  (serve env req files).1 = Fulfilled ∧
  statusCode (responseOf (serve env req files)) = 200 ∧
  filesOf (serve env req files) !! segmentsListFile env (date_now env 1)
  = Some (File (segmentsList (baseUrl s) segs)).
Proof.
  intros Hreach Hprep Hff Hun. unfold responseOf, filesOf.
  destruct (run_reaches_transcoder env req s segs files Hreach Hprep)
    as (st1 & -> & _ & _ & Hs & Hf).
  unfold transcode. rewrite Hff. unfold mbind, M_bind.
  cbn [pipe send modify_res mret M_ret].
  rewrite (cleanup_unlink_fails _ _ _ _ e);
    [|cbn [fs]; by rewrite Hf|exact Hun].
  cbn. auto.
Qed.


(** X10: a truthy [url] that is neither a string nor an array has no
    [includes] method; the [TypeError] is answered with 500 and its
    message, and no file is touched. *)
Theorem non_string_url_is_500 (env : Env) (req : Request)
    (files : gmap string FsEntry) :
  method req = "GET" ∨ method req = "POST" →
  truthy (request_url req) = true →
  (∀ s, request_url req ≠ JStr s) → (∀ xs, request_url req ≠ JArr xs) →
  (serve env req files).1 = Fulfilled ∧
  statusCode (responseOf (serve env req files)) = 500 ∧
  resBody (responseOf (serve env req files))
  = JsonBody (failure_payload "url.includes is not a function") ∧
  filesOf (serve env req files) = files.
Proof.
  intros Hm Ht Hs Ha. unfold serve, responseOf, filesOf.
  rewrite (run_get_post _ _ _ Hm).
  rewrite (guarded_no_method env req _
             (TypeError "url.includes is not a function") Ht); [done|].
  destruct (request_url req) as [| | | |s0|xs0|]; try reflexivity.
  - by destruct (Hs s0).
  - by destruct (Ha xs0).
Qed.

(** X12: when the fetch or the parser throws, the answer is the one of the
    [catch] block: the status of the exception's class, the matching
    payload (with the exception's message for 500), and no file touched. *)
Theorem upstream_failure_answer (env : Env) (req : Request)
    (files : gmap string FsEntry) (s : string) (e : JsError) :
  method req = "GET" ∨ method req = "POST" →
  request_url req = JStr s →
  includes s ".m3u8" = true →
  axios_get env (JStr s) = inl e
  ∨ (∃ text, axios_get env (JStr s) = inr text ∧ m3u8_parse env text = inl e) →
  (serve env req files).1 = Fulfilled ∧
  statusCode (responseOf (serve env req files)) = classify e ∧
  resBody (responseOf (serve env req files)) = JsonBody (catch_payload e) ∧
  filesOf (serve env req files) = files.
Proof.
  intros Hm Hurl Hinc Hfail. unfold serve, responseOf, filesOf.
  rewrite (run_get_post _ _ _ Hm).
  rewrite guarded_valid; rewrite ?Hurl.
  2:{ cbn. destruct s; [discriminate|reflexivity]. }
  2:{ cbn. by rewrite Hinc. }
  destruct Hfail as [Hget|(text & Hget & Hparse)].
  - by rewrite (pipeline_fetch_fails _ _ _ _ Hget), catch_block_payload.
  - by rewrite (pipeline_parse_fails _ _ _ _ _ Hget Hparse), catch_block_payload.
Qed.

(** Every string is free of a character or splits at its last
    occurrence. *)
Lemma split_at_last (c : ascii) (s : string) :
  includes s (String c EmptyString) = false
  ∨ ∃ p r, s = p ++ String c r ∧ includes r (String c EmptyString) = false.
Proof.
  induction s as [|a s IH]; [by left|].
  destruct IH as [Hs|(p & r & -> & Hr)].
  - rewrite includes_char_cons. destruct (Ascii.eqb_spec c a) as [->|Hne].
    + right. exists EmptyString, s. done.
    + left. done.
  - right. exists (String a p), r. done.
Qed.

(** X13: the base URL is always a prefix of the manifest URL, what follows
    it holds no slash, and it is empty or ends with a slash. *)
Theorem baseUrl_decomposition (url : string) :
  ∃ rest, url = baseUrl url ++ rest ∧ includes rest "/" = false ∧
          (baseUrl url = EmptyString ∨ ∃ p, baseUrl url = p ++ "/").
Proof.
  destruct (split_at_last "/" url) as [H|(p & r & -> & Hr)].
  - exists url. rewrite (baseUrl_no_slash _ H). auto.
  - exists r. change (p ++ String "/" r) with (p ++ "/" ++ r).
    rewrite (baseUrl_up_to_last_slash _ _ Hr), append_assoc. eauto.
Qed.

Lemma append_inv_head (s a b : string) : s ++ a = s ++ b → a = b.
Proof.
  induction s as [|c s IH]; [done|].
  rewrite !append_cons. intros [= H]. by apply IH.
Qed.

Lemma append_inv_tail (c a b : string) : a ++ c = b ++ c → a = b.
Proof.
  intros H.
  assert (Hlen : String.length a = String.length b).
  { apply (f_equal String.length) in H. rewrite !length_append in H. lia. }
  revert b H Hlen. induction a as [|x a IH]; intros [|y b] H Hlen;
    try discriminate Hlen; [done|].
  rewrite !append_cons in H. injection H as -> H.
  f_equal. apply IH; [done|]. by injection Hlen.
Qed.

Lemma segmentsListFile_inj (env : Env) (t1 t2 : Z) :
  segmentsListFile env t1 = segmentsListFile env t2 → t1 = t2.
Proof.
  unfold segmentsListFile, path_join. intros H.
  do 3 apply append_inv_head in H. apply append_inv_tail in H.
  by apply (inj pretty) in H.
Qed.

(** X17: two preparations on one host get the same concat-list file name
    exactly when their second clock readings are equal. *)
Theorem concat_list_names_by_timestamp (env : Env) (s1 s2 : string)
    (segs1 segs2 : list Segment) (st1 st2 st1' st2' : State)
    (f1 o1 f2 o2 : string) :
  prepare env (JStr s1) segs1 st1 = (inr (f1, o1), st1') →
  prepare env (JStr s2) segs2 st2 = (inr (f2, o2), st2') →
  f1 = f2 ↔ date_now env (S (clock st1)) = date_now env (S (clock st2)).
Proof.
  intros H1 H2.
  destruct (prepare_cases env s1 segs1 st1) as [(e & st & Hp & _)|(st & Hp & _)];
    rewrite H1 in Hp; [discriminate|]. injection Hp as -> _ _.
  destruct (prepare_cases env s2 segs2 st2) as [(e & sb & Hp & _)|(sb & Hp & _)];
    rewrite H2 in Hp; [discriminate|]. injection Hp as -> _ _.
  split; [apply segmentsListFile_inj|by intros ->].
Qed.

Lemma error_status_has_error_body_witness :
  (serve (Sample.env (FfEnd "mp4")) (Sample.with_method "DELETE") ∅).1
  = Fulfilled ∧
  has_error_field
    (resBody (responseOf (serve (Sample.env (FfEnd "mp4"))
                            (Sample.with_method "DELETE") ∅))) ∧
  finished (responseOf (serve (Sample.env (FfEnd "mp4"))
                          (Sample.with_method "DELETE") ∅)) = true.
Proof. apply error_status_has_error_body. by vm_compute. Defined.

Lemma download_headers_only_on_200_witness :
  headers (responseOf (serve (Scenario.env_upstream 404)
                         (Sample.get (JStr Sample.manifest_url)) ∅))
    !! "Content-Type" = Some json_content_type ∧
  headers (responseOf (serve (Scenario.env_upstream 404)
                         (Sample.get (JStr Sample.manifest_url)) ∅))
    !! "Content-Disposition" = None.
Proof. apply download_headers_only_on_200. by vm_compute. Defined.

Lemma rejected_sends_no_error_witness :
  statusCode
    (responseOf (serve (Sample.env (FfError (Some "ftyp") Sample.invalid_output))
                   (Sample.get (JStr Sample.manifest_url)) ∅)) = 200 ∧
  (resBody
     (responseOf (serve (Sample.env (FfError (Some "ftyp") Sample.invalid_output))
                    (Sample.get (JStr Sample.manifest_url)) ∅)) = NoBody
   ∨ ∃ bytes,
       resBody
         (responseOf (serve (Sample.env (FfError (Some "ftyp") Sample.invalid_output))
                        (Sample.get (JStr Sample.manifest_url)) ∅))
       = StreamBody bytes).
Proof.
  apply (rejected_sends_no_error _ _ _ Sample.invalid_output).
  vm_compute. reflexivity.
Defined.

Lemma fulfilled_is_finished_witness :
  finished (responseOf (serve (Sample.env (FfEnd "mp4"))
                          (Sample.get (JStr Sample.manifest_url)) ∅)) = true.
Proof. apply fulfilled_is_finished. vm_compute. reflexivity. Defined.

Lemma refusal_touches_no_file_witness :
  filesOf (serve (Sample.env (FfEnd "mp4"))
             (Sample.get (JStr "https://example.com/video.mp4"))
             {[ "/tmp/notes.txt" := File "kept" ]})
  = {[ "/tmp/notes.txt" := File "kept" ]}.
Proof.
  apply refusal_touches_no_file. right; left. vm_compute. reflexivity.
Defined.


Lemma array_url_never_transcodes_witness :
  (serve (Sample.env (FfEnd "mp4"))
     (Sample.get (JArr [JStr "a.m3u8"; JStr ".m3u8"])) ∅).1 = Fulfilled ∧
  statusCode (responseOf (serve (Sample.env (FfEnd "mp4"))
     (Sample.get (JArr [JStr "a.m3u8"; JStr ".m3u8"])) ∅)) ≠ 200 ∧
  has_error_field (resBody (responseOf (serve (Sample.env (FfEnd "mp4"))
     (Sample.get (JArr [JStr "a.m3u8"; JStr ".m3u8"])) ∅))) ∧
  filesOf (serve (Sample.env (FfEnd "mp4"))
     (Sample.get (JArr [JStr "a.m3u8"; JStr ".m3u8"])) ∅) = ∅.
Proof.
  apply (array_url_never_transcodes _ _ _ [JStr "a.m3u8"; JStr ".m3u8"]);
    [by left | vm_compute; reflexivity].
Defined.

Lemma non_string_url_is_500_witness :
  (serve (Sample.env (FfEnd "mp4")) (Sample.post (JBool true)) ∅).1
  = Fulfilled ∧
  statusCode (responseOf (serve (Sample.env (FfEnd "mp4"))
                            (Sample.post (JBool true)) ∅)) = 500 ∧
  resBody (responseOf (serve (Sample.env (FfEnd "mp4"))
                         (Sample.post (JBool true)) ∅))
  = JsonBody (failure_payload "url.includes is not a function") ∧
  filesOf (serve (Sample.env (FfEnd "mp4")) (Sample.post (JBool true)) ∅) = ∅.
Proof.
  apply non_string_url_is_500;
    [by right | vm_compute; reflexivity
    | intros s; by vm_compute | intros xs; by vm_compute].
Defined.


Lemma upstream_failure_answer_witness :
  (serve (Scenario.env_upstream 404)
     (Sample.get (JStr Sample.manifest_url)) ∅).1 = Fulfilled ∧
  statusCode (responseOf (serve (Scenario.env_upstream 404)
     (Sample.get (JStr Sample.manifest_url)) ∅))
  = classify (Scenario.upstream 404) ∧
  resBody (responseOf (serve (Scenario.env_upstream 404)
     (Sample.get (JStr Sample.manifest_url)) ∅))
  = JsonBody (catch_payload (Scenario.upstream 404)) ∧
  filesOf (serve (Scenario.env_upstream 404)
     (Sample.get (JStr Sample.manifest_url)) ∅) = ∅.
Proof.
  apply (upstream_failure_answer _ _ _ Sample.manifest_url);
    [by left | vm_compute; reflexivity | reflexivity | left; reflexivity].
Defined.

Lemma streaming_success_witness :
  (serve (Sample.env (FfEnd "mp4")) (Sample.get (JStr Sample.manifest_url)) ∅).1
  = Fulfilled ∧
  statusCode (responseOf (serve (Sample.env (FfEnd "mp4"))
    (Sample.get (JStr Sample.manifest_url)) ∅)) = 200 ∧
  resBody (responseOf (serve (Sample.env (FfEnd "mp4"))
    (Sample.get (JStr Sample.manifest_url)) ∅)) = StreamBody "mp4" ∧
  finished (responseOf (serve (Sample.env (FfEnd "mp4"))
    (Sample.get (JStr Sample.manifest_url)) ∅)) = true ∧
  headers (responseOf (serve (Sample.env (FfEnd "mp4"))
    (Sample.get (JStr Sample.manifest_url)) ∅)) !! "Content-Type"
  = Some "video/mp4" ∧
  headers (responseOf (serve (Sample.env (FfEnd "mp4"))
    (Sample.get (JStr Sample.manifest_url)) ∅)) !! "Content-Disposition"
  = Some (contentDisposition (date_now (Sample.env (FfEnd "mp4")) 2)).
Proof.
  apply (streaming_success _ _ Sample.manifest_url Sample.three_segments).
  - split; [by left|]. split; [by vm_compute|]. split; [reflexivity|].
    split; [discriminate|]. by do 2 eexists.
  - split; [by right | reflexivity].
  - intros files' _. reflexivity.
Defined.

Lemma temp_files_removed_after_event_witness :
  filesOf (serve (Sample.env (FfError None Sample.cannot_find_ffmpeg))
             (Sample.get (JStr Sample.manifest_url)) ∅)
    !! segmentsListFile (Sample.env (FfError None Sample.cannot_find_ffmpeg))
         (date_now (Sample.env (FfError None Sample.cannot_find_ffmpeg)) 1)
  = None ∧
  filesOf (serve (Sample.env (FfError None Sample.cannot_find_ffmpeg))
             (Sample.get (JStr Sample.manifest_url)) ∅)
    !! outputFile (Sample.env (FfError None Sample.cannot_find_ffmpeg))
         (date_now (Sample.env (FfError None Sample.cannot_find_ffmpeg)) 0)
  = None.
Proof.
  apply (temp_files_removed_after_event _ _ Sample.manifest_url
           Sample.three_segments).
  - split; [by left|]. split; [by vm_compute|]. split; [reflexivity|].
    split; [discriminate|]. by do 2 eexists.
  - split; [by right | reflexivity].
  - reflexivity.
  - intros files' e. discriminate.
Defined.

Lemma cleanup_failure_is_silent_witness :
  (serve Scenario.env_unlink_fails (Sample.get (JStr Sample.manifest_url)) ∅).1
  = Fulfilled ∧
  statusCode (responseOf (serve Scenario.env_unlink_fails
    (Sample.get (JStr Sample.manifest_url)) ∅)) = 200 ∧
  filesOf (serve Scenario.env_unlink_fails
    (Sample.get (JStr Sample.manifest_url)) ∅)
    !! segmentsListFile Scenario.env_unlink_fails
         (date_now Scenario.env_unlink_fails 1)
  = Some (File (segmentsList (baseUrl Sample.manifest_url)
                  Sample.three_segments)).
Proof.
  apply (cleanup_failure_is_silent _ _ _ _ _ "mp4" Scenario.not_permitted).
  - split; [by left|]. split; [by vm_compute|]. split; [reflexivity|].
    split; [discriminate|]. by do 2 eexists.
  - split; [by right | reflexivity].
  - reflexivity.
  - reflexivity.
Defined.

Lemma concat_list_names_by_timestamp_witness :
  segmentsListFile (Sample.env (FfEnd "mp4")) 1700000000001
  = segmentsListFile (Sample.env (FfEnd "mp4")) 1700000000004
  ↔ date_now (Sample.env (FfEnd "mp4")) 1
    = date_now (Sample.env (FfEnd "mp4")) 4.
Proof.
  eapply (concat_list_names_by_timestamp (Sample.env (FfEnd "mp4"))
            Sample.manifest_url Sample.manifest_url
            Sample.three_segments Sample.three_segments
            (initial_state ∅)
            {| res := fresh_response; fs := ∅; clock := 3 |});
    vm_compute; reflexivity.
Defined.

(** * The builder and the transcoder, as the handler uses them *)

(** ** The concat list as the handler writes it *)







(** The other way round, a relative name that begins with the letters
    [http] is taken for absolute and kept. *)
Example resolution_of_relative_http_name :
  segmentUrl (baseUrl Sample.manifest_url) {| uri := "httpfoo/seg0.ts" |}
  = "httpfoo/seg0.ts"
  ∧ spec_resolve (baseUrl Sample.manifest_url) "httpfoo/seg0.ts"
    = "https://cdn.example.com/path/httpfoo/seg0.ts".
Proof. split; reflexivity. Qed.




Example concat_list_with_line_feed :
  lines (segmentsList (baseUrl Scenario.url_with_line_feed)
           [ {| uri := "seg0.ts" |} ])
  = [ "file 'https://h/a"; "b/seg0.ts'" ].
Proof. reflexivity. Qed.

(** A relative name that begins with [http] is quoted as it is, and what
    is quoted is then no absolute address. *)
Example concat_list_line_not_absolute :
  lines (segmentsList (baseUrl Sample.manifest_url)
           [ {| uri := "httpfoo/seg0.ts" |} ])
  = [ "file 'httpfoo/seg0.ts'" ]
  ∧ spec_absolute "httpfoo/seg0.ts" = false.
Proof. split; reflexivity. Qed.

(** The directories that a recursive [mkdir] of the temporary directory
    may have to create. *)
Example ancestors_sample :
  ancestors "/var/folders/zz/T/classplus-dl"
  = [ "/var"; "/var/folders"; "/var/folders/zz"; "/var/folders/zz/T" ].
Proof. reflexivity. Qed.

(** A rejection of the guarded block comes from the transcoder, started on
    the concat list that this run has written. *)
Lemma guarded_rejected (env : Env) (req : Request) (st st' : State)
    (e : JsError) :
  try_catch (try_block env req) catch_block st = (inr (Rejected e), st') →
  ∃ s segs st1,
    request_url req = JStr s ∧
    includes s ".m3u8" = true ∧
    segs ≠ [] ∧
    (∃ text manifest,
        axios_get env (JStr s) = inr text ∧
        m3u8_parse env text = inr manifest ∧
        segments manifest = Some segs) ∧
    fs st1 !! segmentsListFile env (date_now env (S (clock st)))
    = Some (File (segmentsList (baseUrl s) segs)) ∧
    (∀ p, p ≠ tempDir env → p ∉ ancestors (tempDir env) →
          p ≠ segmentsListFile env (date_now env (S (clock st))) →
          fs st1 !! p = fs st !! p) ∧
    transcode env (segmentsListFile env (date_now env (S (clock st))))
      (outputFile env (date_now env (clock st))) st1
    = (inr (Rejected e), st').
Proof.
  destruct (truthy (request_url req)) eqn:Htr.
  2:{ rewrite (guarded_falsy _ _ _ Htr), respond_run. discriminate. }
  destruct (url_includes_cases (request_url req) ".m3u8")
    as [[[] Hinc]|(Hinc & _)].
  3:{ rewrite (guarded_no_method _ _ _ _ Htr Hinc), catch_block_payload.
      discriminate. }
  2:{ rewrite (guarded_invalid _ _ _ Htr Hinc), respond_run. discriminate. }
  rewrite (guarded_valid _ _ _ Htr Hinc).
  destruct (axios_get env (request_url req)) as [e'|text] eqn:Hget.
  { rewrite (pipeline_fetch_fails _ _ _ _ Hget), catch_block_payload.
    discriminate. }
  destruct (m3u8_parse env text) as [e'|manifest] eqn:Hparse.
  { rewrite (pipeline_parse_fails _ _ _ _ _ Hget Hparse), catch_block_payload.
    discriminate. }
  rewrite (pipeline_parsed _ _ _ _ _ Hget Hparse).
  destruct (segments manifest) as [[|seg segs]|] eqn:Hsegs;
    [rewrite respond_run; discriminate| |rewrite respond_run; discriminate].
  unfold try_catch, build_and_transcode, mbind, M_bind.
  destruct (request_url req) as [| | | |s| |] eqn:Hurl;
    try (rewrite prepare_not_string by done; rewrite catch_block_payload;
         discriminate).
  destruct (prepare_cases env s (seg :: segs) st)
    as [(e' & st1 & -> & _)|(st1 & -> & _ & _ & _ & _ & _ & Hf & Hfr)].
  { rewrite catch_block_payload. discriminate. }
  cbn [fst snd].
  destruct (transcode_cases env
              (segmentsListFile env (date_now env (S (clock st))))
              (outputFile env (date_now env (clock st))) st1)
    as (r & st2 & Ht & _).
  rewrite Ht. intros [= -> ->].
  exists s, (seg :: segs), st1. split; [done|]. split.
  { apply (f_equal (λ m, (m st).1)) in Hinc. cbn in Hinc. congruence. }
  split; [done|]. split; [by exists text, manifest|]. auto.
Qed.

(** X18: the promise of the handler is rejected by the transcoder step of
    this run and by nothing else: the request has reached the builder, the
    concat list of this run is in its file, no other file has changed, and
    on that file the transcoder chain threw the exception or fired its
    ['error'] event with it. *)
Lemma run_rejected (env : Env) (req : Request) (st : State) (e : JsError) :
  (run env req st).1 = Rejected e →
  ∃ s segs files,
    reaches_builder env req s segs ∧
    files !! segmentsListFile env (date_now env (S (clock st)))
    = Some (File (segmentsList (baseUrl s) segs)) ∧
    (∀ p, p ≠ tempDir env → p ∉ ancestors (tempDir env) →
          p ≠ segmentsListFile env (date_now env (S (clock st))) →
          files !! p = fs st !! p) ∧
    (ffmpeg_run env (segmentsListFile env (date_now env (S (clock st)))) files
     = FfThrows e
     ∨ ∃ piped,
         ffmpeg_run env (segmentsListFile env (date_now env (S (clock st))))
           files
         = FfError piped e).
Proof.
  rewrite run_unfold.
  destruct (String.eqb (method req) "OPTIONS"); [discriminate|].
  destruct (negb (String.eqb (method req) "POST")
            && negb (String.eqb (method req) "GET")) eqn:Hpg; [discriminate|].
  assert (Hgp : method req = "GET" ∨ method req = "POST").
  { apply andb_false_iff in Hpg as [H|H];
      apply negb_false_iff, String.eqb_eq in H; auto. }
  destruct (try_catch (try_block env req) catch_block (cors st).2)
    as [[e'|r] st'] eqn:Hg.
  { destruct (guarded_summary env req (cors st).2) as (r & st2 & Hg' & _).
    congruence. }
  cbn [fst]. intros ->.
  apply guarded_rejected in Hg
    as (s & segs & st1 & Hu & Hinc & Hne & Hfetch & Hf & Hfr & Ht).
  apply transcode_rejected in Ht.
  exists s, segs, (fs st1). split; [by repeat split|]. auto.
Qed.

Lemma run_rejected_witness :
  ∃ s segs files,
    reaches_builder (Sample.env (FfThrows Sample.invalid_output))
      (Sample.get (JStr Sample.manifest_url)) s segs ∧
    files !! segmentsListFile (Sample.env (FfThrows Sample.invalid_output))
               (date_now (Sample.env (FfThrows Sample.invalid_output)) 1)
    = Some (File (segmentsList (baseUrl s) segs)) ∧
    (∀ p, p ≠ tempDir (Sample.env (FfThrows Sample.invalid_output)) →
          p ∉ ancestors (tempDir (Sample.env (FfThrows Sample.invalid_output))) →
          p ≠ segmentsListFile (Sample.env (FfThrows Sample.invalid_output))
                (date_now (Sample.env (FfThrows Sample.invalid_output)) 1) →
          files !! p = fs (initial_state ∅) !! p) ∧
    (ffmpeg_run (Sample.env (FfThrows Sample.invalid_output))
       (segmentsListFile (Sample.env (FfThrows Sample.invalid_output))
          (date_now (Sample.env (FfThrows Sample.invalid_output)) 1)) files
     = FfThrows Sample.invalid_output
     ∨ ∃ piped,
         ffmpeg_run (Sample.env (FfThrows Sample.invalid_output))
           (segmentsListFile (Sample.env (FfThrows Sample.invalid_output))
              (date_now (Sample.env (FfThrows Sample.invalid_output)) 1))
           files
         = FfError piped Sample.invalid_output).
Proof.
  apply (run_rejected (Sample.env (FfThrows Sample.invalid_output))
           (Sample.get (JStr Sample.manifest_url)) (initial_state ∅)).
  vm_compute. reflexivity.
Defined.
